(** * Retry strategy of [strands.event_loop._tool_and_model_retry]

    A shallow embedding of [ToolAndModelRetryStrategy]: the object is a record
    with the fields the Python class assigns in [__init__], its three hook
    callbacks are programs of a small task monad that threads the strategy, the
    mutable event and the event loop, and [asyncio.sleep] is the single point
    where a task can be cancelled.

    Numbers.  Python [int]s are [Z]; the two attempt counters, which start at 0
    and only grow by one, are [nat].  Delays are Python [float]s; they are
    modelled by exact rationals [Q], so the binary64 rounding and range of the
    products [initial_delay * 2**attempt] are outside this development. *)

From Stdlib Require Import ZArith QArith Lqa List String Bool Lia.
From stdpp Require Import base option gmap strings.

Open Scope Z_scope.
Open Scope string_scope.

(** ** Exceptions and events *)

(** The exception classes that the module tells apart: [isinstance] against
    [ModelThrottledException], the [RuntimeError] it synthesises and the
    [ValueError] of the constructor; every other class is [OtherException]. *)
Inductive Exception : Type :=
  | ModelThrottledException (message : string)
  | RuntimeError (message : string)
  | ValueError (message : string)
  | OtherException (class_name message : string).

(** [isinstance(e, ModelThrottledException)], on an optional exception. *)
Definition is_ModelThrottledException (e : option Exception) : bool :=
  match e with
  | Some (ModelThrottledException _) => true
  | _ => false
  end.

(** [EventLoopThrottleEvent(delay=...)], whose delay is an [int]. *)
Record EventLoopThrottleEvent : Type := { delay : Z }.

(** An entry of a tool result's ["content"] list: a [dict], with or without a
    ["text"] key, or a value that is not a [dict]. *)
Inductive ContentItem : Type :=
  | ItemDict (text : option string)
  | ItemOther.

(** The two dictionaries an [AfterToolCallEvent] carries; a key read with
    [.get] is an [option]. *)
Record ToolUse : Type := { toolUseId : option string; name : option string }.
Record ToolResult : Type := { status : option string; content : option (list ContentItem) }.

Module AfterModelCallEvent.

Record t : Type := {
  exception : option Exception;
  stop_response : option string;
  retry : bool
}.

Definition set_retry (b : bool) (e : t) : t :=
  {| exception := exception e; stop_response := stop_response e; retry := b |}.

End AfterModelCallEvent.

Module AfterToolCallEvent.

Record t : Type := {
  tool_use : ToolUse;
  result : ToolResult;
  exception : option Exception;
  retry : bool
}.

Definition set_retry (b : bool) (e : t) : t :=
  {| tool_use := tool_use e; result := result e; exception := exception e; retry := b |}.

End AfterToolCallEvent.

Module AfterInvocationEvent.

Record t : Type := { result : option string }.

End AfterInvocationEvent.

(** ** The strategy object *)

(** A value of [tool_configs]: a dictionary with the optional keys
    ["max_attempts"], ["initial_delay"] and ["max_delay"]. *)
Record ToolConfig : Type := {
  max_attempts : option Z;
  initial_delay : option Q;
  max_delay : option Q
}.

(** [{}], the default of [self._tool_configs.get(tool_name, {})]. *)
Definition empty_config : ToolConfig :=
  {| max_attempts := None; initial_delay := None; max_delay := None |}.

(** The instance attributes, in the order [__init__] assigns them. *)
Record ToolAndModelRetryStrategy : Type := {
  _model_max_attempts : Z;
  _model_initial_delay : Q;
  _model_max_delay : Q;
  _model_current_attempt : nat;
  _tool_max_attempts : Z;
  _tool_initial_delay : Q;
  _tool_max_delay : Q;
  _tool_should_retry : option (Exception -> bool);
  _tool_configs : gmap string ToolConfig;
  _tool_enabled_tools : option (gset string);
  _tool_disabled_tools : option (gset string);
  _tool_attempts : gmap string nat;
  _backwards_compatible_event_to_yield : option EventLoopThrottleEvent
}.

(** Assignments to the three attributes that change after construction. *)
Definition set_model_current_attempt (n : nat) (s : ToolAndModelRetryStrategy) :=
  {| _model_max_attempts := _model_max_attempts s;
     _model_initial_delay := _model_initial_delay s;
     _model_max_delay := _model_max_delay s;
     _model_current_attempt := n;
     _tool_max_attempts := _tool_max_attempts s;
     _tool_initial_delay := _tool_initial_delay s;
     _tool_max_delay := _tool_max_delay s;
     _tool_should_retry := _tool_should_retry s;
     _tool_configs := _tool_configs s;
     _tool_enabled_tools := _tool_enabled_tools s;
     _tool_disabled_tools := _tool_disabled_tools s;
     _tool_attempts := _tool_attempts s;
     _backwards_compatible_event_to_yield := _backwards_compatible_event_to_yield s |}.

Definition set_tool_attempts (m : gmap string nat) (s : ToolAndModelRetryStrategy) :=
  {| _model_max_attempts := _model_max_attempts s;
     _model_initial_delay := _model_initial_delay s;
     _model_max_delay := _model_max_delay s;
     _model_current_attempt := _model_current_attempt s;
     _tool_max_attempts := _tool_max_attempts s;
     _tool_initial_delay := _tool_initial_delay s;
     _tool_max_delay := _tool_max_delay s;
     _tool_should_retry := _tool_should_retry s;
     _tool_configs := _tool_configs s;
     _tool_enabled_tools := _tool_enabled_tools s;
     _tool_disabled_tools := _tool_disabled_tools s;
     _tool_attempts := m;
     _backwards_compatible_event_to_yield := _backwards_compatible_event_to_yield s |}.

Definition set_backwards_compatible_event_to_yield
    (e : option EventLoopThrottleEvent) (s : ToolAndModelRetryStrategy) :=
  {| _model_max_attempts := _model_max_attempts s;
     _model_initial_delay := _model_initial_delay s;
     _model_max_delay := _model_max_delay s;
     _model_current_attempt := _model_current_attempt s;
     _tool_max_attempts := _tool_max_attempts s;
     _tool_initial_delay := _tool_initial_delay s;
     _tool_max_delay := _tool_max_delay s;
     _tool_should_retry := _tool_should_retry s;
     _tool_configs := _tool_configs s;
     _tool_enabled_tools := _tool_enabled_tools s;
     _tool_disabled_tools := _tool_disabled_tools s;
     _tool_attempts := _tool_attempts s;
     _backwards_compatible_event_to_yield := e |}.

(** The keyword arguments of [__init__]. *)
Record Args : Type := {
  model_max_attempts : Z;
  model_initial_delay : Q;
  model_max_delay : Q;
  tool_max_attempts : Z;
  tool_initial_delay : Q;
  tool_max_delay : Q;
  tool_should_retry : option (Exception -> bool);
  tool_configs : option (gmap string ToolConfig);
  tool_enabled_tools : option (list string);
  tool_disabled_tools : option (list string)
}.

(** The defaults of the signature of [__init__]. *)
Definition default_args : Args :=
  {| model_max_attempts := 6;
     model_initial_delay := 4;
     model_max_delay := 240;
     tool_max_attempts := 0;
     tool_initial_delay := 1;
     tool_max_delay := 30;
     tool_should_retry := None;
     tool_configs := None;
     tool_enabled_tools := None;
     tool_disabled_tools := None |}.

(** [set(l) if l else None]: an absent list and an empty list both give
    [None]. *)
Definition set_if_truthy (l : option (list string)) : option (gset string) :=
  match l with
  | None => None
  | Some [] => None
  | Some (x :: r) => Some (list_to_set (x :: r))
  end.

(** [__init__]: [inl] is the exception it raises. *)
Definition __init__ (a : Args) : Exception + ToolAndModelRetryStrategy :=
  match tool_enabled_tools a, tool_disabled_tools a with
  | Some _, Some _ =>
      inl (ValueError "Cannot specify both tool_enabled_tools and tool_disabled_tools")
  | _, _ =>
      inr {| _model_max_attempts := model_max_attempts a;
             _model_initial_delay := model_initial_delay a;
             _model_max_delay := model_max_delay a;
             _model_current_attempt := 0;
             _tool_max_attempts := tool_max_attempts a;
             _tool_initial_delay := tool_initial_delay a;
             _tool_max_delay := tool_max_delay a;
             _tool_should_retry := tool_should_retry a;
             _tool_configs := default ∅ (tool_configs a);
             _tool_enabled_tools := set_if_truthy (tool_enabled_tools a);
             _tool_disabled_tools := set_if_truthy (tool_disabled_tools a);
             _tool_attempts := ∅;
             _backwards_compatible_event_to_yield := None |}
  end.

(** ** Tasks on the event loop *)

(** What a callback runs against: the strategy ([self]), the event it was
    handed, the delays passed to [asyncio.sleep] so far, and whether the
    enclosing task is cancelled while it is suspended in its next sleep. *)
Record World (E : Type) : Type := {
  self : ToolAndModelRetryStrategy;
  event : E;
  slept : list Q;
  cancel_in_sleep : bool
}.
Arguments self {E} _.
Arguments event {E} _.
Arguments slept {E} _.
Arguments cancel_in_sleep {E} _.

(** A coroutine either runs to its end or stops at a suspension point with
    [asyncio.CancelledError]. *)
Inductive Outcome (A : Type) : Type :=
  | Returned (a : A)
  | CancelledError.
Arguments Returned {A} _.
Arguments CancelledError {A}.

Definition Task (E A : Type) : Type := World E -> Outcome A * World E.

Definition ret {E A} (a : A) : Task E A := fun w => (Returned a, w).

Definition bind {E A B} (c : Task E A) (k : A -> Task E B) : Task E B :=
  fun w =>
    match c w with
    | (Returned a, w') => k a w'
    | (CancelledError, w') => (CancelledError, w')
    end.

Declare Scope task_scope.
Delimit Scope task_scope with task.
Notation "x <- c ;; k" := (bind c (fun x => k))
  (at level 100, c at next level, right associativity) : task_scope.
Notation "c ;; k" := (bind c (fun _ => k))
  (at level 100, right associativity) : task_scope.

Definition get_self {E} : Task E ToolAndModelRetryStrategy :=
  fun w => (Returned (self w), w).

Definition get_event {E} : Task E E :=
  fun w => (Returned (event w), w).

Definition modify_self {E} (f : ToolAndModelRetryStrategy -> ToolAndModelRetryStrategy) : Task E unit :=
  fun w => (Returned tt,
            {| self := f (self w); event := event w;
               slept := slept w; cancel_in_sleep := cancel_in_sleep w |}).

Definition modify_event {E} (f : E -> E) : Task E unit :=
  fun w => (Returned tt,
            {| self := self w; event := f (event w);
               slept := slept w; cancel_in_sleep := cancel_in_sleep w |}).

(** [await asyncio.sleep(d)]: the call is recorded; a cancellation that arrives
    during the wait is raised here. *)
Definition asyncio_sleep {E} (d : Q) : Task E unit :=
  fun w =>
    let w' := {| self := self w; event := event w;
                 slept := slept w ++ [d]; cancel_in_sleep := cancel_in_sleep w |} in
    if cancel_in_sleep w then (CancelledError, w') else (Returned tt, w').

(** ** Python arithmetic on delays *)

(** [x < y] on delays. *)
Definition Qltb (x y : Q) : bool := negb (Qle_bool y x).

(** [min(a, b)]: the first argument unless the second is smaller. *)
Definition py_min (a b : Q) : Q := if Qltb b a then b else a.

(** [int(d)]: truncation toward zero. *)
Definition py_int (d : Q) : Z := Z.quot (Qnum d) (Z.pos (Qden d)).

(** [2**attempt] for an attempt number that is not negative. *)
Definition pow2 (attempt : nat) : Q := inject_Z (2 ^ Z.of_nat attempt).

(** ** Model retry logic *)

Definition _calculate_model_delay (s : ToolAndModelRetryStrategy) (attempt : nat) : Q :=
  let delay := (_model_initial_delay s * pow2 attempt)%Q in
  py_min delay (_model_max_delay s).

Definition _handle_after_model_call : Task AfterModelCallEvent.t unit :=
  (ev <- get_event ;;
   if AfterModelCallEvent.retry ev then ret tt
   else if bool_decide (AfterModelCallEvent.stop_response ev <> None) then
     modify_self (set_model_current_attempt 0) ;;
     modify_self (set_backwards_compatible_event_to_yield None) ;;
     ret tt
   else if negb (is_ModelThrottledException (AfterModelCallEvent.exception ev)) then
     modify_self (set_model_current_attempt 0) ;;
     modify_self (set_backwards_compatible_event_to_yield None) ;;
     ret tt
   else
     s <- get_self ;;
     if (_model_max_attempts s <=? Z.of_nat (_model_current_attempt s))%Z then ret tt
     else
       let delay := _calculate_model_delay s (_model_current_attempt s) in
       asyncio_sleep delay ;;
       modify_self (set_backwards_compatible_event_to_yield
                      (Some {| delay := py_int delay |})) ;;
       s <- get_self ;;
       modify_self (set_model_current_attempt (_model_current_attempt s + 1)) ;;
       modify_event (AfterModelCallEvent.set_retry true))%task.

(** ** Tool retry logic *)

Definition _get_tool_config (s : ToolAndModelRetryStrategy) (tool_name : string) : Z * Q * Q :=
  let tool_config := default empty_config (_tool_configs s !! tool_name) in
  (default (_tool_max_attempts s) (max_attempts tool_config),
   default (_tool_initial_delay s) (initial_delay tool_config),
   default (_tool_max_delay s) (max_delay tool_config)).

Definition _is_tool_retry_enabled (s : ToolAndModelRetryStrategy) (tool_name : string) : bool :=
  let lists :=
    match _tool_enabled_tools s with
    | Some enabled => bool_decide (tool_name ∈ enabled)
    | None =>
        match _tool_disabled_tools s with
        | Some disabled => bool_decide (tool_name ∉ disabled)
        | None => true
        end
    end in
  if (_tool_max_attempts s <=? 0)%Z then
    let tool_config := default empty_config (_tool_configs s !! tool_name) in
    if (default 0 (max_attempts tool_config) <=? 0)%Z then false
    else lists
  else lists.

Definition _calculate_tool_delay (attempt : nat) (initial_delay max_delay : Q) : Q :=
  let delay := (initial_delay * pow2 attempt)%Q in
  py_min delay max_delay.

Definition _is_tool_error_result (ev : AfterToolCallEvent.t) : bool :=
  if bool_decide (AfterToolCallEvent.exception ev <> None) then true
  else if bool_decide (status (AfterToolCallEvent.result ev) = Some "error") then true
  else false.

(** The [for] loop of [_get_tool_error_for_predicate]: the ["text"] of the
    first item that is a [dict] with that key, [""] when there is none. *)
Fixpoint first_text (content : list ContentItem) : string :=
  match content with
  | [] => ""
  | ItemDict (Some t) :: _ => t
  | _ :: rest => first_text rest
  end.

(** [x or y] on strings. *)
Definition str_or (x y : string) : string :=
  if bool_decide (x = "") then y else x.

Definition _get_tool_error_for_predicate (ev : AfterToolCallEvent.t) : option Exception :=
  match AfterToolCallEvent.exception ev with
  | Some e => Some e
  | None =>
      if bool_decide (status (AfterToolCallEvent.result ev) = Some "error") then
        let content := default [] (content (AfterToolCallEvent.result ev)) in
        let error_text := first_text content in
        Some (RuntimeError (str_or error_text "Tool returned error status"))
      else None
  end.

(** [self._tool_should_retry is not None and error is not None and not
    self._tool_should_retry(error)]. *)
Definition predicate_rejects (s : ToolAndModelRetryStrategy) (error : option Exception) : bool :=
  match _tool_should_retry s, error with
  | Some should_retry, Some e => negb (should_retry e)
  | _, _ => false
  end.

Definition _handle_after_tool_call : Task AfterToolCallEvent.t unit :=
  (ev <- get_event ;;
   let tool_use_id := default "" (toolUseId (AfterToolCallEvent.tool_use ev)) in
   let tool_name := default "" (name (AfterToolCallEvent.tool_use ev)) in
   if AfterToolCallEvent.retry ev then ret tt
   else
     s <- get_self ;;
     if negb (_is_tool_retry_enabled s tool_name) then ret tt
     else
       let '(max_attempts, initial_delay, max_delay) := _get_tool_config s tool_name in
       let current_attempt := default 0%nat (_tool_attempts s !! tool_use_id) in
       if negb (_is_tool_error_result ev) then
         (if bool_decide (is_Some (_tool_attempts s !! tool_use_id)) then
            modify_self (fun s => set_tool_attempts (delete tool_use_id (_tool_attempts s)) s)
          else ret tt)
       else
         let error := _get_tool_error_for_predicate ev in
         if predicate_rejects s error then ret tt
         else
           let current_attempt := (current_attempt + 1)%nat in
           modify_self (fun s => set_tool_attempts
                                   (<[tool_use_id := current_attempt]> (_tool_attempts s)) s) ;;
           if (max_attempts <=? Z.of_nat current_attempt)%Z then ret tt
           else
             let delay := _calculate_tool_delay (current_attempt - 1) initial_delay max_delay in
             asyncio_sleep delay ;;
             modify_event (AfterToolCallEvent.set_retry true))%task.

(** ** Common logic *)

Definition _reset_state (s : ToolAndModelRetryStrategy) : ToolAndModelRetryStrategy :=
  set_tool_attempts ∅
    (set_backwards_compatible_event_to_yield None
       (set_model_current_attempt 0 s)).

Definition _handle_after_invocation : Task AfterInvocationEvent.t unit :=
  modify_self _reset_state.

(** ** Running a callback *)

(** The world a callback starts in: nothing slept yet. *)
Definition start {E} (s : ToolAndModelRetryStrategy) (ev : E) (cancel : bool) : World E :=
  {| self := s; event := ev; slept := []; cancel_in_sleep := cancel |}.

(** A tool event that fails with an exception, and one that succeeds. *)
Definition tool_failure (id tool : string) : AfterToolCallEvent.t :=
  {| AfterToolCallEvent.tool_use := {| toolUseId := Some id; name := Some tool |};
     AfterToolCallEvent.result := {| status := Some "error"; content := Some [ItemDict (Some "boom")] |};
     AfterToolCallEvent.exception := None;
     AfterToolCallEvent.retry := false |}.

Definition tool_success (id tool : string) : AfterToolCallEvent.t :=
  {| AfterToolCallEvent.tool_use := {| toolUseId := Some id; name := Some tool |};
     AfterToolCallEvent.result := {| status := Some "success"; content := Some [ItemDict (Some "ok")] |};
     AfterToolCallEvent.exception := None;
     AfterToolCallEvent.retry := false |}.

(** A model event that fails with a throttling error. *)
Definition model_throttled : AfterModelCallEvent.t :=
  {| AfterModelCallEvent.exception := Some (ModelThrottledException "throttled");
     AfterModelCallEvent.stop_response := None;
     AfterModelCallEvent.retry := false |}.

(** One delivery of an event to [_handle_after_tool_call], not cancelled:
    the strategy afterwards, the event's [retry] flag and the delays slept. *)
Definition after_tool_call (s : ToolAndModelRetryStrategy) (ev : AfterToolCallEvent.t)
  : ToolAndModelRetryStrategy * bool * list Q :=
  let w := snd (_handle_after_tool_call (start s ev false)) in
  (self w, AfterToolCallEvent.retry (event w), slept w).

(** The same for [_handle_after_model_call]. *)
Definition after_model_call (s : ToolAndModelRetryStrategy) (ev : AfterModelCallEvent.t)
  : ToolAndModelRetryStrategy * bool * list Q :=
  let w := snd (_handle_after_model_call (start s ev false)) in
  (self w, AfterModelCallEvent.retry (event w), slept w).

(** The hook bus delivering tool events one after the other to the same
    strategy; for each event, the flag and the delays it ended with. *)
Fixpoint deliver_tool_events (s : ToolAndModelRetryStrategy) (evs : list AfterToolCallEvent.t)
  : ToolAndModelRetryStrategy * list (bool * list Q) :=
  match evs with
  | [] => (s, [])
  | ev :: rest =>
      let '(s1, r, d) := after_tool_call s ev in
      let '(s2, out) := deliver_tool_events s1 rest in
      (s2, (r, d) :: out)
  end.

(** Construction followed by a run of tool events. *)
Definition session (a : Args) (evs : list AfterToolCallEvent.t)
  : Exception + (gmap string nat * list (bool * list Q)) :=
  match __init__ a with
  | inl e => inl e
  | inr s => let '(s', out) := deliver_tool_events s evs in inr (_tool_attempts s', out)
  end.

(** The correlation key and the tool name the handler reads off an event. *)
Definition tool_use_id_of (ev : AfterToolCallEvent.t) : string :=
  default "" (toolUseId (AfterToolCallEvent.tool_use ev)).

Definition tool_name_of (ev : AfterToolCallEvent.t) : string :=
  default "" (name (AfterToolCallEvent.tool_use ev)).

(** The attempt count on record for an identifier, zero when there is none. *)
Definition attempts_of (s : ToolAndModelRetryStrategy) (id : string) : nat :=
  default 0%nat (_tool_attempts s !! id).

(** The predicate, if one is configured, approves the error derived from the
    event. *)
Definition predicate_approves (s : ToolAndModelRetryStrategy) (ev : AfterToolCallEvent.t) : Prop :=
  forall should_retry e,
    _tool_should_retry s = Some should_retry ->
    _get_tool_error_for_predicate ev = Some e ->
    should_retry e = true.

(** [ToolAndModelRetryStrategy(...)] with the model arguments and the two
    tool delays at their defaults. *)
Definition tool_args (n : Z) (should_retry : option (Exception -> bool))
    (configs : option (gmap string ToolConfig))
    (enabled disabled : option (list string)) : Args :=
  {| model_max_attempts := model_max_attempts default_args;
     model_initial_delay := model_initial_delay default_args;
     model_max_delay := model_max_delay default_args;
     tool_max_attempts := n;
     tool_initial_delay := tool_initial_delay default_args;
     tool_max_delay := tool_max_delay default_args;
     tool_should_retry := should_retry;
     tool_configs := configs;
     tool_enabled_tools := enabled;
     tool_disabled_tools := disabled |}.

(** A task cancelled while it sleeps in the tool callback: the world it
    leaves behind. *)
Definition cancelled_tool_call (s : ToolAndModelRetryStrategy) (ev : AfterToolCallEvent.t)
  : Outcome unit * World AfterToolCallEvent.t :=
  _handle_after_tool_call (start s ev true).

Definition cancelled_model_call (s : ToolAndModelRetryStrategy) (ev : AfterModelCallEvent.t)
  : Outcome unit * World AfterModelCallEvent.t :=
  _handle_after_model_call (start s ev true).

(** "Counter before the sleep, flag after it" for a tool retry decision: when
    the undisturbed callback decides to retry, the cancelled one has stored the
    attempt and has not set the flag. *)
Definition tool_attempt_recorded_before_sleep : Prop :=
  forall s ev,
    AfterToolCallEvent.retry ev = false ->
    snd (fst (after_tool_call s ev)) = true ->
    fst (cancelled_tool_call s ev) = CancelledError /\
    attempts_of (self (snd (cancelled_tool_call s ev))) (tool_use_id_of ev)
      = S (attempts_of s (tool_use_id_of ev)) /\
    AfterToolCallEvent.retry (event (snd (cancelled_tool_call s ev))) = false.

(** The same reading for a model retry decision. *)
Definition model_attempt_recorded_before_sleep : Prop :=
  forall s ev,
    AfterModelCallEvent.retry ev = false ->
    snd (fst (after_model_call s ev)) = true ->
    fst (cancelled_model_call s ev) = CancelledError /\
    _model_current_attempt (self (snd (cancelled_model_call s ev)))
      = S (_model_current_attempt s) /\
    AfterModelCallEvent.retry (event (snd (cancelled_model_call s ev))) = false.

(** What the code does in a model retry decision: the sleep comes first, so
    the cancelled callback has changed nothing. *)
Definition model_sleep_before_any_update : Prop :=
  forall s ev,
    AfterModelCallEvent.retry ev = false ->
    snd (fst (after_model_call s ev)) = true ->
    fst (cancelled_model_call s ev) = CancelledError /\
    self (snd (cancelled_model_call s ev)) = s /\
    AfterModelCallEvent.retry (event (snd (cancelled_model_call s ev))) = false.

(** A success event: no exception and a status other than ["error"]. *)
Definition indicates_success (ev : AfterToolCallEvent.t) : Prop :=
  AfterToolCallEvent.exception ev = None /\
  status (AfterToolCallEvent.result ev) <> Some "error".

(** "Success clears the record" read for every success event. *)
Definition success_always_clears : Prop :=
  forall s ev n,
    indicates_success ev ->
    _tool_attempts s !! tool_use_id_of ev = Some n ->
    _tool_attempts (fst (fst (after_tool_call s ev)))
      = delete (tool_use_id_of ev) (_tool_attempts s).

(** An item of a content list that the error-text loop skips. *)
Definition not_textual (i : ContentItem) : Prop :=
  match i with
  | ItemDict (Some _) => False
  | _ => True
  end.

(** The strategy [ToolAndModelRetryStrategy()] of a call without arguments. *)
Definition default_strategy : ToolAndModelRetryStrategy :=
  {| _model_max_attempts := 6; _model_initial_delay := 4;
     _model_max_delay := 240; _model_current_attempt := 0;
     _tool_max_attempts := 0; _tool_initial_delay := 1;
     _tool_max_delay := 30; _tool_should_retry := None;
     _tool_configs := ∅; _tool_enabled_tools := None;
     _tool_disabled_tools := None; _tool_attempts := ∅;
     _backwards_compatible_event_to_yield := None |}.

(** [ToolAndModelRetryStrategy(tool_max_attempts=n)] with [attempts] on
    record. *)
Definition tool_strategy (n : Z) (attempts : gmap string nat) : ToolAndModelRetryStrategy :=
  {| _model_max_attempts := 6; _model_initial_delay := 4;
     _model_max_delay := 240; _model_current_attempt := 0;
     _tool_max_attempts := n; _tool_initial_delay := 1;
     _tool_max_delay := 30; _tool_should_retry := None;
     _tool_configs := ∅; _tool_enabled_tools := None;
     _tool_disabled_tools := None; _tool_attempts := attempts;
     _backwards_compatible_event_to_yield := None |}.

(** A failing tool event whose [tool_use] has no ["toolUseId"] entry. *)
Definition tool_failure_without_id (tool : string) : AfterToolCallEvent.t :=
  {| AfterToolCallEvent.tool_use := {| toolUseId := None; name := Some tool |};
     AfterToolCallEvent.result := {| status := Some "error"; content := None |};
     AfterToolCallEvent.exception := Some (OtherException "TimeoutError" "timed out");
     AfterToolCallEvent.retry := false |}.

(** ** The hook bus *)

(** The three event classes [register_hooks] subscribes to, each routed to the
    callback it registers for that class. *)
Inductive HookEvent : Type :=
  | ModelCall (ev : AfterModelCallEvent.t)
  | ToolCall (ev : AfterToolCallEvent.t)
  | Invocation (ev : AfterInvocationEvent.t).

(** The strategy after the callback registered for the event has run, the
    task being cancelled in its sleep or not. *)
Definition dispatch (s : ToolAndModelRetryStrategy) (h : HookEvent * bool)
  : ToolAndModelRetryStrategy :=
  match h with
  | (ModelCall ev, cancel) => self (snd (_handle_after_model_call (start s ev cancel)))
  | (ToolCall ev, cancel) => self (snd (_handle_after_tool_call (start s ev cancel)))
  | (Invocation ev, cancel) => self (snd (_handle_after_invocation (start s ev cancel)))
  end.

(** A history of events delivered to one strategy. *)
Definition deliver (s : ToolAndModelRetryStrategy) (hs : list (HookEvent * bool))
  : ToolAndModelRetryStrategy :=
  fold_left dispatch hs s.

(** Model events delivered one after the other, none cancelled; for each
    event, the flag and the delays it ended with. *)
Fixpoint deliver_model_events (s : ToolAndModelRetryStrategy) (evs : list AfterModelCallEvent.t)
  : ToolAndModelRetryStrategy * list (bool * list Q) :=
  match evs with
  | [] => (s, [])
  | ev :: rest =>
      let '(s1, r, d) := after_model_call s ev in
      let '(s2, out) := deliver_model_events s1 rest in
      (s2, (r, d) :: out)
  end.

(** The attributes that [__init__] sets and no callback assigns. *)
Definition same_configuration (s s' : ToolAndModelRetryStrategy) : Prop :=
  _model_max_attempts s' = _model_max_attempts s /\
  _model_initial_delay s' = _model_initial_delay s /\
  _model_max_delay s' = _model_max_delay s /\
  _tool_max_attempts s' = _tool_max_attempts s /\
  _tool_initial_delay s' = _tool_initial_delay s /\
  _tool_max_delay s' = _tool_max_delay s /\
  _tool_should_retry s' = _tool_should_retry s /\
  _tool_configs s' = _tool_configs s /\
  _tool_enabled_tools s' = _tool_enabled_tools s /\
  _tool_disabled_tools s' = _tool_disabled_tools s.

(** Every identifier on record has failed at least once. *)
Definition counts_positive (s : ToolAndModelRetryStrategy) : Prop :=
  forall id n, _tool_attempts s !! id = Some n -> (1 <= n)%nat.

(** What the [i]-th of a run of failures of one identifier ends with, when
    the run starts from the count [c]. *)
Definition nth_failure_outcome (c : nat) (max_attempts : Z) (initial_delay max_delay : Q)
    (i : nat) : bool * list Q :=
  if (max_attempts <=? Z.of_nat (S (c + i)))%Z then (false, [])
  else (true, [_calculate_tool_delay (c + i) initial_delay max_delay]).

(** The same for a run of throttled model calls from the counter [c]. *)
Definition nth_throttle_outcome (s : ToolAndModelRetryStrategy) (c : nat) (i : nat)
  : bool * list Q :=
  if (_model_max_attempts s <=? Z.of_nat (c + i))%Z then (false, [])
  else (true, [_calculate_model_delay s (c + i)]).

(** A model event that succeeded, and one that failed without throttling. *)
Definition model_success : AfterModelCallEvent.t :=
  {| AfterModelCallEvent.exception := None;
     AfterModelCallEvent.stop_response := Some "end_turn";
     AfterModelCallEvent.retry := false |}.

Definition model_failure : AfterModelCallEvent.t :=
  {| AfterModelCallEvent.exception := Some (OtherException "ValueError" "bad request");
     AfterModelCallEvent.stop_response := None;
     AfterModelCallEvent.retry := false |}.

(** A delivery that cannot clear the record of [uid]: a model event, a tool
    event of another identifier, or a failure event of [uid]; not a success
    event of [uid], which deletes the record, and not an after-invocation
    event, which empties the map. *)
Definition keeps_record (uid : string) (h : HookEvent * bool) : Prop :=
  match fst h with
  | ModelCall _ => True
  | ToolCall ev => tool_use_id_of ev = uid -> _is_tool_error_result ev = true
  | Invocation _ => False
  end.

(** "Exhaustion is terminal" read for every later failure event: once the
    count on record for an identifier has reached the effective
    [max_attempts], a failure event of that identifier is not retried,
    whatever was delivered in between. *)
Definition exhaustion_terminal_as_stated : Prop :=
  forall s uid n hs ev,
    _tool_attempts s !! uid = Some n ->
    (fst (fst (_get_tool_config s (tool_name_of ev))) <= Z.of_nat n)%Z ->
    tool_use_id_of ev = uid ->
    _is_tool_error_result ev = true ->
    AfterToolCallEvent.retry ev = false ->
    snd (fst (after_tool_call (deliver s hs) ev)) = false.

(** * Properties *)

Ltac run_task :=
  cbv beta iota zeta delta
    [after_tool_call after_model_call _handle_after_tool_call
     _handle_after_model_call _handle_after_invocation bind get_event get_self
     ret modify_self modify_event asyncio_sleep start self event slept
     cancel_in_sleep fst snd negb].

Lemma approves_not_rejects s ev :
  predicate_approves s ev -> predicate_rejects s (_get_tool_error_for_predicate ev) = false.
Proof.
  unfold predicate_approves, predicate_rejects. intros H.
  destruct (_tool_should_retry s) as [p|]; [|reflexivity].
  destruct (_get_tool_error_for_predicate ev) as [e|]; [|reflexivity].
  rewrite (H p e); reflexivity.
Qed.

(** What a failure that passes every gate does to the world, cancelled or not:
    the count is stored first, then comes the sleep, then the flag. *)
Lemma tool_failure_step s ev cancel max_attempts initial_delay max_delay :
  AfterToolCallEvent.retry ev = false ->
  _is_tool_retry_enabled s (tool_name_of ev) = true ->
  _is_tool_error_result ev = true ->
  predicate_rejects s (_get_tool_error_for_predicate ev) = false ->
  _get_tool_config s (tool_name_of ev) = (max_attempts, initial_delay, max_delay) ->
  let n := S (attempts_of s (tool_use_id_of ev)) in
  let s' := set_tool_attempts (<[tool_use_id_of ev := n]> (_tool_attempts s)) s in
  let d := _calculate_tool_delay (n - 1) initial_delay max_delay in
  _handle_after_tool_call (start s ev cancel) =
    if (max_attempts <=? Z.of_nat n)%Z then
      (Returned tt, {| self := s'; event := ev; slept := []; cancel_in_sleep := cancel |})
    else if cancel then
      (CancelledError, {| self := s'; event := ev; slept := [d]; cancel_in_sleep := cancel |})
    else
      (Returned tt, {| self := s'; event := AfterToolCallEvent.set_retry true ev;
                       slept := [d]; cancel_in_sleep := cancel |}).
Proof.
  intros Hr He Hf Hp Hc n s' d. subst n s' d. run_task.
  unfold tool_name_of, tool_use_id_of, attempts_of in *.
  rewrite Hr, He, Hf, Hp, Hc. cbv beta iota delta [negb].
  rewrite Nat.add_1_r.
  destruct (max_attempts <=? _)%Z; [reflexivity|].
  cbv beta iota delta [app].
  destruct cancel; reflexivity.
Qed.

(** ** The scenarios of the unit tests, evaluated *)

(** [tool_max_attempts=5, tool_initial_delay=1.0, tool_max_delay=8.0]: four
    failures of one identifier sleep 1, 2, 4 and 8 seconds and are all
    retried. *)
Example exponential_backoff_scenario :
  session {| model_max_attempts := 6; model_initial_delay := 4; model_max_delay := 240;
             tool_max_attempts := 5; tool_initial_delay := 1; tool_max_delay := 8;
             tool_should_retry := None; tool_configs := None;
             tool_enabled_tools := None; tool_disabled_tools := None |}
          [tool_failure "test-id" "test_tool"; tool_failure "test-id" "test_tool";
           tool_failure "test-id" "test_tool"; tool_failure "test-id" "test_tool"]
  = inr ({["test-id" := 4%nat]},
         [(true, [1%Q]); (true, [2%Q]); (true, [4%Q]); (true, [8%Q])]).
Proof. vm_compute. reflexivity. Qed.

(** The override [{"special_tool": {"max_attempts": 5, "initial_delay": 2.0}}]
    over the global [max_attempts=2]: four failures sleep 2, 4, 8 and 16. *)
Example per_tool_override_scenario :
  session (tool_args 2 None
             (Some {["special_tool" := {| max_attempts := Some 5; initial_delay := Some 2%Q;
                                          max_delay := None |}]})
             None None)
          [tool_failure "id-1" "special_tool"; tool_failure "id-1" "special_tool";
           tool_failure "id-1" "special_tool"; tool_failure "id-1" "special_tool"]
  = inr ({["id-1" := 4%nat]},
         [(true, [2%Q]); (true, [4%Q]); (true, [8%Q]); (true, [16%Q])]).
Proof. vm_compute. reflexivity. Qed.

(** Two identifiers fail in turn and one of them then succeeds: the other
    keeps its count. *)
Example concurrent_tool_tracking_scenario :
  session (tool_args 3 None None None None)
          [tool_failure "id-1" "tool_a"; tool_failure "id-2" "tool_b";
           tool_failure "id-1" "tool_a"; tool_success "id-2" "tool_b"]
  = inr ({["id-1" := 2%nat]},
         [(true, [1%Q]); (true, [1%Q]); (true, [2%Q]); (false, [])]).
Proof. vm_compute. reflexivity. Qed.

(** With the defaults tool retries are off and model retries are on. *)
Example default_scenario :
  session default_args [tool_failure "id-1" "test_tool"] = inr (∅, [(false, [])]) /\
  snd (fst (after_model_call default_strategy model_throttled)) = true /\
  __init__ default_args = inr default_strategy.
Proof. vm_compute. repeat split; reflexivity. Qed.

(** ** Tool failures and the backoff delay *)

(** C1.  A tool event with the retry flag unset, an enabled tool and a failure
    the predicate (if any) approves raises the identifier's count to [n]; when
    [n] is below the effective [max_attempts] the callback sleeps
    [min(initial_delay * 2^(n-1), max_delay)] and sets the flag, and otherwise
    it neither sleeps nor sets it.  With [tool_max_attempts=2] and the default
    initial delay 1.0 the first failure of an identifier gives count 1, delay
    1.0 and retry; the second gives count 2 and no retry. *)
Theorem C1_tool_failure_counts_and_backs_off :
  (forall s ev max_attempts initial_delay max_delay,
      AfterToolCallEvent.retry ev = false ->
      _is_tool_retry_enabled s (tool_name_of ev) = true ->
      _is_tool_error_result ev = true ->
      predicate_approves s ev ->
      _get_tool_config s (tool_name_of ev) = (max_attempts, initial_delay, max_delay) ->
      let n := S (attempts_of s (tool_use_id_of ev)) in
      let '(s', r, d) := after_tool_call s ev in
      _tool_attempts s' = <[tool_use_id_of ev := n]> (_tool_attempts s) /\
      attempts_of s' (tool_use_id_of ev) = n /\
      ((Z.of_nat n < max_attempts)%Z ->
         d = [py_min (initial_delay * pow2 (n - 1))%Q max_delay] /\ r = true) /\
      ((max_attempts <= Z.of_nat n)%Z -> d = [] /\ r = false))
  /\
  (exists s0, __init__ (tool_args 2 None None None None) = inr s0 /\
     let '(s1, r1, d1) := after_tool_call s0 (tool_failure "id-1" "my_tool") in
     let '(s2, r2, d2) := after_tool_call s1 (tool_failure "id-1" "my_tool") in
     _tool_attempts s1 !! "id-1" = Some 1%nat /\ d1 = [1%Q] /\ r1 = true /\
     _tool_attempts s2 !! "id-1" = Some 2%nat /\ d2 = [] /\ r2 = false).
Proof.
  split.
  - intros s ev ma idl mdl Hr He Hf Hp Hc n.
    unfold after_tool_call.
    rewrite (tool_failure_step s ev false ma idl mdl Hr He Hf
               (approves_not_rejects _ _ Hp) Hc).
    fold n. destruct (Z.leb_spec ma (Z.of_nat n)) as [Hle|Hlt]; cbn [snd self event slept].
    + repeat split; try lia; try assumption.
      unfold attempts_of. cbn. now rewrite lookup_insert_eq.
    + repeat split; try lia.
      unfold attempts_of. cbn. now rewrite lookup_insert_eq.
  - eexists. split; [reflexivity|]. vm_compute. repeat split; reflexivity.
Qed.

(** The general part of C1 at the first failure of ["id-1"] under
    [tool_max_attempts=5]. *)
Lemma C1_witness :
  let s := tool_strategy 5 ∅ in
  let '(s', r, d) := after_tool_call s (tool_failure "id-1" "my_tool") in
  _tool_attempts s' = <["id-1" := 1%nat]> (_tool_attempts s) /\
  attempts_of s' "id-1" = 1%nat /\
  ((1 < 5)%Z -> d = [py_min (1 * pow2 0)%Q 30] /\ r = true) /\
  ((5 <= 1)%Z -> d = [] /\ r = false).
Proof.
  intros s.
  apply (proj1 C1_tool_failure_counts_and_backs_off s (tool_failure "id-1" "my_tool") 5%Z 1%Q 30%Q).
  - reflexivity.
  - reflexivity.
  - reflexivity.
  - intros p e Hp. discriminate Hp.
  - reflexivity.
Defined.

(** ** Model throttling *)

(** What a throttled model call does to the world, cancelled or not: the sleep
    comes first, then the notification, the counter and the flag. *)
Lemma model_throttled_step s ev cancel :
  AfterModelCallEvent.retry ev = false ->
  AfterModelCallEvent.stop_response ev = None ->
  is_ModelThrottledException (AfterModelCallEvent.exception ev) = true ->
  let c := _model_current_attempt s in
  let d := _calculate_model_delay s c in
  _handle_after_model_call (start s ev cancel) =
    if (_model_max_attempts s <=? Z.of_nat c)%Z then
      (Returned tt, start s ev cancel)
    else if cancel then
      (CancelledError, {| self := s; event := ev; slept := [d]; cancel_in_sleep := cancel |})
    else
      (Returned tt,
       {| self := set_model_current_attempt (c + 1)
                    (set_backwards_compatible_event_to_yield
                       (Some {| delay := py_int d |}) s);
          event := AfterModelCallEvent.set_retry true ev;
          slept := [d]; cancel_in_sleep := cancel |}).
Proof.
  intros Hr Hs Ht c d. subst c d. run_task.
  rewrite Hr, Hs, Ht. cbv beta iota delta [negb].
  rewrite bool_decide_eq_false_2 by (intros H; now apply H).
  destruct (_model_max_attempts s <=? _)%Z; [reflexivity|].
  cbv beta iota delta [app].
  destruct cancel; reflexivity.
Qed.

(** C2.  A model event with the retry flag unset, no success payload and a
    throttling exception: once the counter has reached [model_max_attempts]
    the callback changes nothing; otherwise it sleeps
    [min(model_initial_delay * 2^counter, model_max_delay)] at the counter's
    value before the increment, stores a notification with the delay truncated
    to an integer, adds one to the counter and sets the flag.  The defaults
    are 6 attempts, 4.0 seconds and 240.0 seconds. *)
Theorem C2_model_throttle_backs_off :
  (forall s ev,
      AfterModelCallEvent.retry ev = false ->
      AfterModelCallEvent.stop_response ev = None ->
      is_ModelThrottledException (AfterModelCallEvent.exception ev) = true ->
      let c := _model_current_attempt s in
      let '(s', r, d) := after_model_call s ev in
      ((_model_max_attempts s <= Z.of_nat c)%Z -> s' = s /\ r = false /\ d = []) /\
      ((Z.of_nat c < _model_max_attempts s)%Z ->
         let delay := py_min (_model_initial_delay s * pow2 c)%Q (_model_max_delay s) in
         d = [delay] /\
         _backwards_compatible_event_to_yield s' = Some {| delay := py_int delay |} /\
         _model_current_attempt s' = S c /\
         _tool_attempts s' = _tool_attempts s /\
         r = true))
  /\
  (exists s0, __init__ default_args = inr s0 /\
     _model_max_attempts s0 = 6%Z /\
     _model_initial_delay s0 = 4%Q /\
     _model_max_delay s0 = 240%Q /\
     _model_current_attempt s0 = 0%nat).
Proof.
  split.
  - intros s ev Hr Hs Ht c. unfold after_model_call.
    rewrite (model_throttled_step s ev false Hr Hs Ht). fold c.
    destruct (Z.leb_spec (_model_max_attempts s) (Z.of_nat c)) as [Hle|Hlt];
      cbv beta iota zeta delta [snd self event slept start].
    + split; [intros _|intros H; lia]. repeat split; assumption.
    + split; [intros H; lia|intros _].
      repeat split. cbn. f_equal. lia.
  - eexists. split; [reflexivity|]. repeat split.
Qed.

(** The general part of C2 at the first throttled call of a default
    strategy: four seconds, notification 4, counter 1, retry. *)
Lemma C2_witness :
  let s := default_strategy in
  let '(s', r, d) := after_model_call s model_throttled in
  ((6 <= 0)%Z -> s' = s /\ r = false /\ d = []) /\
  ((0 < 6)%Z ->
     d = [4%Q] /\
     _backwards_compatible_event_to_yield s' = Some {| delay := 4 |} /\
     _model_current_attempt s' = 1%nat /\
     _tool_attempts s' = ∅ /\
     r = true).
Proof.
  intros s.
  apply (proj1 C2_model_throttle_backs_off s model_throttled); reflexivity.
Defined.

(** ** Where the sleep sits *)

(** The tool callback sets the flag only on the path through every gate. *)
Lemma tool_retry_set_inv s ev :
  AfterToolCallEvent.retry ev = false ->
  snd (fst (after_tool_call s ev)) = true ->
  _is_tool_retry_enabled s (tool_name_of ev) = true /\
  _is_tool_error_result ev = true /\
  predicate_rejects s (_get_tool_error_for_predicate ev) = false /\
  (Z.of_nat (S (attempts_of s (tool_use_id_of ev)))
     < fst (fst (_get_tool_config s (tool_name_of ev))))%Z.
Proof.
  intros Hr. run_task. fold (tool_name_of ev) (tool_use_id_of ev).
  rewrite Hr.
  destruct (_is_tool_retry_enabled s (tool_name_of ev)); cbv beta iota delta [negb];
    [|intros H; congruence].
  destruct (_get_tool_config s (tool_name_of ev)) as [[ma idl] mdl].
  destruct (_is_tool_error_result ev); cbv beta iota delta [negb].
  - destruct (predicate_rejects s (_get_tool_error_for_predicate ev));
      [intros H; congruence|].
    fold (attempts_of s (tool_use_id_of ev)). rewrite Nat.add_1_r.
    destruct (Z.leb_spec ma (Z.of_nat (S (attempts_of s (tool_use_id_of ev)))))
      as [Hle|Hlt]; [intros H; congruence|].
    intros _. repeat split. exact Hlt.
  - destruct (bool_decide _); intros H; cbn in H; congruence.
Qed.

(** The model callback sets the flag only on a throttled call below the cap. *)
Lemma model_retry_set_inv s ev :
  AfterModelCallEvent.retry ev = false ->
  snd (fst (after_model_call s ev)) = true ->
  AfterModelCallEvent.stop_response ev = None /\
  is_ModelThrottledException (AfterModelCallEvent.exception ev) = true /\
  (Z.of_nat (_model_current_attempt s) < _model_max_attempts s)%Z.
Proof.
  intros Hr. run_task. rewrite Hr.
  destruct (AfterModelCallEvent.stop_response ev) as [p|].
  - rewrite bool_decide_eq_true_2 by discriminate. intros H; congruence.
  - rewrite bool_decide_eq_false_2 by (intros H; now apply H).
    destruct (is_ModelThrottledException _); cbv beta iota delta [negb];
      [|intros H; congruence].
    destruct (Z.leb_spec (_model_max_attempts s) (Z.of_nat (_model_current_attempt s)));
      [intros H'; congruence|].
    intros _. repeat split. assumption.
Qed.

Lemma tool_attempt_is_recorded_before_sleep : tool_attempt_recorded_before_sleep.
Proof.
  intros s ev Hr Hset.
  destruct (tool_retry_set_inv s ev Hr Hset) as (He & Hf & Hp & Hlt).
  unfold cancelled_tool_call.
  destruct (_get_tool_config s (tool_name_of ev)) as [[ma idl] mdl] eqn:Hc.
  rewrite (tool_failure_step s ev true ma idl mdl Hr He Hf Hp Hc).
  cbn [fst] in Hlt.
  destruct (Z.leb_spec ma (Z.of_nat (S (attempts_of s (tool_use_id_of ev))))); [lia|].
  cbn [fst snd self event]. repeat split; [|assumption].
  unfold attempts_of at 1. cbn. now rewrite lookup_insert_eq.
Qed.

Lemma model_sleeps_before_any_update : model_sleep_before_any_update.
Proof.
  intros s ev Hr Hset.
  destruct (model_retry_set_inv s ev Hr Hset) as (Hs & Ht & Hlt).
  unfold cancelled_model_call.
  rewrite (model_throttled_step s ev true Hr Hs Ht).
  destruct (Z.leb_spec (_model_max_attempts s) (Z.of_nat (_model_current_attempt s))); [lia|].
  cbn [fst snd self event]. repeat split. assumption.
Qed.

(** C3, as stated, fails: a default strategy cancelled during the sleep of its
    first throttled model call still has its counter at 0. *)
Lemma C3_counterexample :
  ~ (tool_attempt_recorded_before_sleep /\ model_attempt_recorded_before_sleep).
Proof.
  intros [_ H].
  destruct (H default_strategy model_throttled eq_refl eq_refl) as (_ & Hc & _).
  vm_compute in Hc. discriminate Hc.
Qed.

(** C3, amended.  In a tool retry decision the count is stored before the
    sleep and the flag is set after it: a task cancelled in the sleep leaves
    the attempt recorded and the flag unset.  In a model retry decision the
    sleep comes before the notification, the counter and the flag: a task
    cancelled in the sleep leaves the strategy and the flag as they were. *)
Theorem C3_order_around_the_sleep :
  tool_attempt_recorded_before_sleep /\ model_sleep_before_any_update.
Proof.
  split.
  - exact tool_attempt_is_recorded_before_sleep.
  - exact model_sleeps_before_any_update.
Qed.

(** C3 at a first tool failure under [tool_max_attempts=5] and at a first
    throttled model call, both cancelled in the sleep. *)
Lemma C3_witness :
  (fst (cancelled_tool_call (tool_strategy 5 ∅) (tool_failure "id-1" "my_tool")) = CancelledError /\
   attempts_of (self (snd (cancelled_tool_call (tool_strategy 5 ∅) (tool_failure "id-1" "my_tool"))))
     (tool_use_id_of (tool_failure "id-1" "my_tool"))
     = S (attempts_of (tool_strategy 5 ∅) (tool_use_id_of (tool_failure "id-1" "my_tool"))) /\
   AfterToolCallEvent.retry
     (event (snd (cancelled_tool_call (tool_strategy 5 ∅) (tool_failure "id-1" "my_tool")))) = false)
  /\
  (fst (cancelled_model_call default_strategy model_throttled) = CancelledError /\
   self (snd (cancelled_model_call default_strategy model_throttled)) = default_strategy /\
   AfterModelCallEvent.retry
     (event (snd (cancelled_model_call default_strategy model_throttled))) = false).
Proof.
  split.
  - apply (proj1 C3_order_around_the_sleep (tool_strategy 5 ∅) (tool_failure "id-1" "my_tool"));
      reflexivity.
  - apply (proj2 C3_order_around_the_sleep default_strategy model_throttled); reflexivity.
Defined.

(** ** Which tools are retried *)

(** What [_is_tool_retry_enabled] asks of the stored attributes. *)
Lemma is_tool_retry_enabled_spec s tool_name :
  _is_tool_retry_enabled s tool_name = true <->
  ((0 < _tool_max_attempts s)%Z \/
   exists c m, _tool_configs s !! tool_name = Some c /\ max_attempts c = Some m /\ (0 < m)%Z) /\
  (forall enabled, _tool_enabled_tools s = Some enabled -> tool_name ∈ enabled) /\
  (forall disabled, _tool_enabled_tools s = None ->
     _tool_disabled_tools s = Some disabled -> tool_name ∉ disabled).
Proof.
  unfold _is_tool_retry_enabled.
  assert (Hl : match _tool_enabled_tools s with
               | Some enabled => bool_decide (tool_name ∈ enabled)
               | None => match _tool_disabled_tools s with
                         | Some disabled => bool_decide (tool_name ∉ disabled)
                         | None => true
                         end
               end = true <->
               (forall enabled, _tool_enabled_tools s = Some enabled -> tool_name ∈ enabled) /\
               (forall disabled, _tool_enabled_tools s = None ->
                  _tool_disabled_tools s = Some disabled -> tool_name ∉ disabled)).
  { destruct (_tool_enabled_tools s) as [en|].
    - rewrite bool_decide_eq_true. split.
      + intros H. split; [intros ? [= <-]; exact H | intros ? [=]].
      + intros [H _]. now apply H.
    - destruct (_tool_disabled_tools s) as [dis|].
      + rewrite bool_decide_eq_true. split.
        * intros H. split; [intros ? [=] | intros ? _ [= <-]; exact H].
        * intros [_ H]. now apply H.
      + split; [|reflexivity]. intros _. split; [intros ? [=] | intros ? _ [=]]. }
  destruct (Z.leb_spec (_tool_max_attempts s) 0) as [Hg|Hg].
  - destruct (_tool_configs s !! tool_name) as [c|] eqn:Hc; cbn [default from_option id].
    + destruct (max_attempts c) as [m|] eqn:Hm; cbn [default from_option id].
      * destruct (Z.leb_spec m 0) as [Hm0|Hm0].
        -- split; [discriminate|]. intros [[H|(c' & m' & [= <-] & Hm' & Hpos)] _]; [lia|].
           rewrite Hm in Hm'. injection Hm' as <-. lia.
        -- rewrite Hl. split; [intros H; split; [right; eauto|exact H] | intros [_ H]; exact H].
      * split; [discriminate|].
        intros [[H|(c' & m' & [= <-] & Hm' & _)] _]; [lia|congruence].
    + split; [discriminate|].
      intros [[H|(c' & m' & [=] & _)] _]. lia.
  - rewrite Hl. split; [intros H; split; [left; lia|exact H] | intros [_ H]; exact H].
Qed.

(** The flag is set only for a tool that passes [_is_tool_retry_enabled]. *)
Lemma tool_retry_only_if_enabled s ev :
  AfterToolCallEvent.retry ev = false ->
  snd (fst (after_tool_call s ev)) = true ->
  _is_tool_retry_enabled s (tool_name_of ev) = true.
Proof. intros Hr Hset. exact (proj1 (tool_retry_set_inv s ev Hr Hset)). Qed.

(** What [__init__] stores for the two lists: the set of a list that is not
    empty, and [None] for an empty list as for an absent one. *)
Lemma set_if_truthy_spec l :
  (set_if_truthy l = None <-> l = None \/ l = Some []) /\
  (forall x r, l = Some (x :: r) -> set_if_truthy l = Some (list_to_set (x :: r))).
Proof.
  split.
  - destruct l as [[|x r]|]; cbn; split; intros H; try reflexivity; try discriminate; auto.
    destruct H as [H|H]; discriminate H.
  - intros x r ->. reflexivity.
Qed.

(** C4, the code at the input where it departs from the claim.  A strategy
    built with [tool_max_attempts=3] and the empty allow-list stores no
    allow-list, enables every tool, and retries the first failure of
    ["other_tool"]; built with the allow-list [["enabled_tool"]] it does not
    retry it. *)
Theorem C4_empty_allow_list_retries_every_tool :
  (exists s0, __init__ (tool_args 3 None None (Some []) None) = inr s0 /\
     _tool_enabled_tools s0 = None /\
     _is_tool_retry_enabled s0 "other_tool" = true /\
     let '(s1, r, d) := after_tool_call s0 (tool_failure "id-1" "other_tool") in
     r = true /\ d = [1%Q] /\ _tool_attempts s1 !! "id-1" = Some 1%nat)
  /\
  (exists s0, __init__ (tool_args 3 None None (Some ["enabled_tool"]) None) = inr s0 /\
     _is_tool_retry_enabled s0 "other_tool" = false /\
     let '(s1, r, d) := after_tool_call s0 (tool_failure "id-1" "other_tool") in
     r = false /\ d = [] /\ _tool_attempts s1 !! "id-1" = None).
Proof.
  split; (eexists; split; [reflexivity|]); vm_compute; repeat split; reflexivity.
Qed.

(** ** One delivery of a tool event, case by case *)

(** The undisturbed tool callback as a function of the strategy and the
    event, following the callback's own sequence of early returns. *)
Lemma after_tool_call_cases s ev :
  let id := tool_use_id_of ev in
  let m := _tool_attempts s in
  after_tool_call s ev =
    if AfterToolCallEvent.retry ev then (s, true, [])
    else if negb (_is_tool_retry_enabled s (tool_name_of ev)) then (s, false, [])
    else if negb (_is_tool_error_result ev) then
      (if bool_decide (is_Some (m !! id)) then set_tool_attempts (delete id m) s else s,
       false, [])
    else if predicate_rejects s (_get_tool_error_for_predicate ev) then (s, false, [])
    else
      let n := S (attempts_of s id) in
      let s' := set_tool_attempts (<[id := n]> m) s in
      let '(max_attempts, initial_delay, max_delay) := _get_tool_config s (tool_name_of ev) in
      if (max_attempts <=? Z.of_nat n)%Z then (s', false, [])
      else (s', true, [_calculate_tool_delay (n - 1) initial_delay max_delay]).
Proof.
  intros id m. subst id m.
  unfold tool_name_of, tool_use_id_of, attempts_of.
  destruct (AfterToolCallEvent.retry ev) eqn:Hr.
  { run_task. rewrite Hr. run_task. now rewrite Hr. }
  destruct (_is_tool_retry_enabled s _) eqn:He; cbv beta iota delta [negb].
  2:{ run_task. rewrite Hr, He. run_task. now rewrite Hr. }
  destruct (_is_tool_error_result ev) eqn:Hf; cbv beta iota delta [negb].
  2:{ run_task. rewrite Hr, He, Hf. run_task.
      destruct (_get_tool_config s _) as [[ma idl] mdl].
      destruct (bool_decide _); run_task; now rewrite Hr. }
  destruct (predicate_rejects s (_get_tool_error_for_predicate ev)) eqn:Hp.
  { run_task. rewrite Hr, He, Hf, Hp. run_task.
    destruct (_get_tool_config s _) as [[ma idl] mdl]. run_task. now rewrite Hr. }
  destruct (_get_tool_config s _) as [[ma idl] mdl] eqn:Hc.
  cbv zeta. unfold after_tool_call.
  rewrite (tool_failure_step s ev false ma idl mdl Hr He Hf Hp Hc).
  unfold tool_name_of, tool_use_id_of, attempts_of.
  destruct (ma <=? _)%Z; cbn [snd self event slept]; [now rewrite ?Hr | reflexivity].
Qed.

(** A delivery changes no attribute but the attempt map. *)
Lemma after_tool_call_frame s ev :
  exists m, fst (fst (after_tool_call s ev)) = set_tool_attempts m s.
Proof.
  assert (Hid : s = set_tool_attempts (_tool_attempts s) s) by (destruct s; reflexivity).
  rewrite after_tool_call_cases.
  destruct (AfterToolCallEvent.retry ev); [eauto|].
  destruct (negb (_is_tool_retry_enabled _ _)); [eauto|].
  destruct (negb (_is_tool_error_result ev)).
  { destruct (bool_decide _); cbn [fst]; eauto. }
  destruct (predicate_rejects _ _); [eauto|].
  destruct (_get_tool_config _ _) as [[ma idl] mdl].
  cbv zeta. destruct (ma <=? _)%Z; cbn [fst]; eauto.
Qed.

(** A delivery leaves the count of every identifier but the event's own. *)
Lemma after_tool_call_other_ids s ev id' :
  id' <> tool_use_id_of ev ->
  _tool_attempts (fst (fst (after_tool_call s ev))) !! id' = _tool_attempts s !! id'.
Proof.
  intros Hne. rewrite after_tool_call_cases.
  destruct (AfterToolCallEvent.retry ev); [reflexivity|].
  destruct (negb (_is_tool_retry_enabled _ _)); [reflexivity|].
  destruct (negb (_is_tool_error_result ev)).
  { destruct (bool_decide _); cbn [fst]; [|reflexivity].
    cbn. now rewrite lookup_delete_ne. }
  destruct (predicate_rejects _ _); [reflexivity|].
  destruct (_get_tool_config _ _) as [[ma idl] mdl].
  cbv zeta. destruct (ma <=? _)%Z; cbn; now rewrite lookup_insert_ne.
Qed.

Lemma get_tool_config_frame m s tool :
  _get_tool_config (set_tool_attempts m s) tool = _get_tool_config s tool.
Proof. reflexivity. Qed.

Lemma is_tool_retry_enabled_frame m s tool :
  _is_tool_retry_enabled (set_tool_attempts m s) tool = _is_tool_retry_enabled s tool.
Proof. reflexivity. Qed.

(** ** Exhaustion *)

(** One delivery to a strategy in which [uid] is exhausted for [tool]: the
    identifier stays exhausted, and a failure of [uid] is not retried. *)
Lemma exhausted_step s uid tool n ev :
  _tool_attempts s !! uid = Some n ->
  (fst (fst (_get_tool_config s tool)) <= Z.of_nat n)%Z ->
  (tool_use_id_of ev = uid -> _is_tool_error_result ev = true /\ tool_name_of ev = tool) ->
  let '(s', r, d) := after_tool_call s ev in
  (exists n', _tool_attempts s' !! uid = Some n' /\ (n <= n')%nat) /\
  _get_tool_config s' tool = _get_tool_config s tool /\
  (tool_use_id_of ev = uid -> AfterToolCallEvent.retry ev = false -> r = false /\ d = []).
Proof.
  intros Hn Hmax Hev.
  destruct (decide (tool_use_id_of ev = uid)) as [Heq|Hne].
  - destruct (Hev Heq) as [Hf Ht]. rewrite after_tool_call_cases.
    rewrite Hf, Ht, Heq. cbv beta iota delta [negb].
    destruct (AfterToolCallEvent.retry ev).
    { split; [eauto|]. split; [reflexivity|]. intros _ [=]. }
    destruct (_is_tool_retry_enabled s tool); cbv beta iota delta [negb]; [|now eauto 6].
    destruct (predicate_rejects _ _); [now eauto 6|].
    destruct (_get_tool_config s tool) as [[ma idl] mdl] eqn:Hc. cbn [fst] in Hmax.
    cbv zeta. unfold attempts_of. rewrite Hn. cbn [default from_option id].
    destruct (Z.leb_spec ma (Z.of_nat (S n))); [|lia].
    split; [|split; [exact Hc|now auto]].
    exists (S n). cbn. rewrite lookup_insert_eq. split; [reflexivity|lia].
  - pose proof (after_tool_call_other_ids s ev uid (not_eq_sym Hne)) as Ho.
    destruct (after_tool_call_frame s ev) as [m Hm].
    destruct (after_tool_call s ev) as [[s' r] d]. cbn [fst] in Ho, Hm.
    split; [exists n; rewrite Ho; auto|].
    split; [now rewrite Hm|]. intros Heq. congruence.
Qed.

(** Over a run of tool events in which the events of an exhausted identifier
    are failures of its tool, each of them that arrives with the flag unset
    leaves with it unset, and without a sleep, whatever events of other
    identifiers are delivered in between. *)
Lemma exhaustion_over_tool_events :
  forall (evs : list AfterToolCallEvent.t) s uid tool n,
    _tool_attempts s !! uid = Some n ->
    (fst (fst (_get_tool_config s tool)) <= Z.of_nat n)%Z ->
    Forall (fun ev => tool_use_id_of ev = uid ->
                      _is_tool_error_result ev = true /\ tool_name_of ev = tool) evs ->
    Forall2 (fun ev out => tool_use_id_of ev = uid ->
                           AfterToolCallEvent.retry ev = false ->
                           fst out = false /\ snd out = [])
            evs (snd (deliver_tool_events s evs)).
Proof.
  induction evs as [|ev evs IH]; intros s uid tool n Hn Hmax Hall.
  - constructor.
  - inversion Hall as [|? ? Hev Hrest]; subst.
    pose proof (exhausted_step s uid tool n ev Hn Hmax Hev) as Hstep.
    cbn [deliver_tool_events].
    destruct (after_tool_call s ev) as [[s1 r] d].
    destruct Hstep as ((n' & Hn' & Hle) & Hcfg & Hflag).
    assert (Hmax' : (fst (fst (_get_tool_config s1 tool)) <= Z.of_nat n')%Z)
      by (rewrite Hcfg; lia).
    specialize (IH s1 uid tool n' Hn' Hmax' Hrest).
    destruct (deliver_tool_events s1 evs) as [s2 out]. cbn [snd] in *.
    constructor; [exact Hflag | exact IH].
Qed.

(** The run lemma on a strategy with [tool_max_attempts=2] whose identifier ["id-1"] has
    count 2: two more failures of ["id-1"], with a failure of ["id-2"] in
    between. *)
Example exhaustion_over_tool_events_example :
  Forall2 (fun ev out => tool_use_id_of ev = "id-1" ->
                         AfterToolCallEvent.retry ev = false ->
                         fst out = false /\ snd out = [])
    [tool_failure "id-1" "my_tool"; tool_failure "id-2" "my_tool"; tool_failure "id-1" "my_tool"]
    (snd (deliver_tool_events (tool_strategy 2 {["id-1" := 2%nat]})
            [tool_failure "id-1" "my_tool"; tool_failure "id-2" "my_tool";
             tool_failure "id-1" "my_tool"])).
Proof.
  apply (exhaustion_over_tool_events _ (tool_strategy 2 {["id-1" := 2%nat]}) "id-1" "my_tool" 2%nat).
  - reflexivity.
  - vm_compute. discriminate.
  - repeat constructor.
Qed.

(** ** Success clears the record *)

Lemma indicates_success_not_error ev :
  indicates_success ev <-> _is_tool_error_result ev = false.
Proof.
  unfold indicates_success, _is_tool_error_result. split.
  - intros [He Hs]. rewrite He.
    rewrite bool_decide_eq_false_2 by (intros H; now apply H).
    now rewrite bool_decide_eq_false_2.
  - destruct (AfterToolCallEvent.exception ev) as [e|].
    + rewrite bool_decide_eq_true_2 by discriminate. discriminate.
    + rewrite bool_decide_eq_false_2 by (intros H; now apply H).
      destruct (bool_decide_reflect (status (AfterToolCallEvent.result ev) = Some "error"));
        [discriminate|]. auto.
Qed.

(** C6, as stated, fails: a success event that another hook has already
    marked for retry is returned untouched, and the record of its identifier
    stays in the map. *)
Lemma C6_counterexample : ~ success_always_clears.
Proof.
  intros H.
  specialize (H (tool_strategy 3 {["id-1" := 1%nat]})
                (AfterToolCallEvent.set_retry true (tool_success "id-1" "my_tool"))
                1%nat).
  assert (Hl : _tool_attempts
                 (fst (fst (after_tool_call (tool_strategy 3 {["id-1" := 1%nat]})
                              (AfterToolCallEvent.set_retry true (tool_success "id-1" "my_tool")))))
               !! "id-1" = None).
  { rewrite H.
    - apply lookup_delete_eq.
    - split; [reflexivity|discriminate].
    - reflexivity. }
  vm_compute in Hl. discriminate Hl.
Qed.

(** C6, amended.  A success event that arrives with the retry flag unset, for
    a tool with retries enabled and an identifier with a failure on record,
    removes exactly that identifier's entry: the map afterwards is the map
    before without that key, so every other identifier keeps its count.  And
    whatever the event, a delivery never changes the count of an identifier
    other than the event's own. *)
Theorem C6_success_removes_only_its_own_entry :
  (forall s ev n,
      AfterToolCallEvent.retry ev = false ->
      _is_tool_retry_enabled s (tool_name_of ev) = true ->
      indicates_success ev ->
      _tool_attempts s !! tool_use_id_of ev = Some n ->
      let s' := fst (fst (after_tool_call s ev)) in
      _tool_attempts s' = delete (tool_use_id_of ev) (_tool_attempts s) /\
      _tool_attempts s' !! tool_use_id_of ev = None /\
      (forall id', id' <> tool_use_id_of ev ->
                   _tool_attempts s' !! id' = _tool_attempts s !! id') /\
      snd (fst (after_tool_call s ev)) = false)
  /\
  (forall s ev id',
      id' <> tool_use_id_of ev ->
      _tool_attempts (fst (fst (after_tool_call s ev))) !! id' = _tool_attempts s !! id').
Proof.
  split.
  - intros s ev n Hr He Hs Hn s'. subst s'.
    apply indicates_success_not_error in Hs.
    rewrite after_tool_call_cases. rewrite Hr, He, Hs, Hn.
    cbv beta iota delta [negb].
    rewrite bool_decide_eq_true_2 by eauto. cbn [fst snd].
    change (_tool_attempts (set_tool_attempts ?m s)) with m.
    split; [reflexivity|]. split; [apply lookup_delete_eq|].
    split; [|reflexivity]. intros id' Hne. now apply lookup_delete_ne.
  - exact after_tool_call_other_ids.
Qed.

(** C6 on a strategy with [tool_max_attempts=3] and the counts
    ["id-1" -> 1], ["id-2" -> 2], at a success of ["id-1"]. *)
Lemma C6_witness :
  let s := tool_strategy 3 (<["id-2" := 2%nat]> {["id-1" := 1%nat]}) in
  let ev := tool_success "id-1" "my_tool" in
  let s' := fst (fst (after_tool_call s ev)) in
  _tool_attempts s' = delete (tool_use_id_of ev) (_tool_attempts s) /\
  _tool_attempts s' !! tool_use_id_of ev = None /\
  (forall id', id' <> tool_use_id_of ev ->
               _tool_attempts s' !! id' = _tool_attempts s !! id') /\
  snd (fst (after_tool_call s ev)) = false.
Proof.
  intros s ev.
  apply (proj1 C6_success_removes_only_its_own_entry s ev 1%nat).
  - reflexivity.
  - reflexivity.
  - split; [reflexivity|discriminate].
  - reflexivity.
Defined.

(** ** The predicate gate *)

Lemma first_text_skips pre rest :
  Forall not_textual pre -> first_text (pre ++ rest) = first_text rest.
Proof.
  induction 1 as [|i pre Hi _ IH]; [reflexivity|].
  destruct i as [[t|]|]; cbn in *; [contradiction|exact IH|exact IH].
Qed.

(** Every failure event yields an error for the predicate. *)
Lemma failure_has_error ev :
  _is_tool_error_result ev = true -> exists e, _get_tool_error_for_predicate ev = Some e.
Proof.
  unfold _is_tool_error_result, _get_tool_error_for_predicate.
  destruct (AfterToolCallEvent.exception ev) as [e|]; [eauto|].
  rewrite bool_decide_eq_false_2 by (intros H; now apply H).
  destruct (bool_decide _); [eauto|discriminate].
Qed.

(** C7.  When a [should_retry] predicate is configured and returns false for
    the error derived from a failure event, the callback changes nothing: the
    strategy, and with it the identifier's count, is as before, the flag is as
    it arrived (unset stays unset) and there is no sleep.  The derived error is
    the event's exception when there is one; otherwise, for an error status,
    a [RuntimeError] carrying the text of the first content item that has one,
    or the fallback message when that text is empty or no item has a text. *)
Theorem C7_rejected_failure_is_neither_retried_nor_counted :
  (forall s ev should_retry e,
      _is_tool_error_result ev = true ->
      _tool_should_retry s = Some should_retry ->
      _get_tool_error_for_predicate ev = Some e ->
      should_retry e = false ->
      let '(s', r, d) := after_tool_call s ev in
      s' = s /\
      attempts_of s' (tool_use_id_of ev) = attempts_of s (tool_use_id_of ev) /\
      r = AfterToolCallEvent.retry ev /\
      (AfterToolCallEvent.retry ev = false -> r = false) /\
      d = [])
  /\
  (forall ev e,
      AfterToolCallEvent.exception ev = Some e ->
      _get_tool_error_for_predicate ev = Some e)
  /\
  (forall ev pre t post,
      AfterToolCallEvent.exception ev = None ->
      status (AfterToolCallEvent.result ev) = Some "error" ->
      content (AfterToolCallEvent.result ev) = Some (pre ++ ItemDict (Some t) :: post)%list ->
      Forall not_textual pre ->
      _get_tool_error_for_predicate ev =
        Some (RuntimeError (if bool_decide (t = "") then "Tool returned error status" else t)))
  /\
  (forall ev,
      AfterToolCallEvent.exception ev = None ->
      status (AfterToolCallEvent.result ev) = Some "error" ->
      (content (AfterToolCallEvent.result ev) = None \/
       exists l, content (AfterToolCallEvent.result ev) = Some l /\ Forall not_textual l) ->
      _get_tool_error_for_predicate ev = Some (RuntimeError "Tool returned error status")).
Proof.
  repeat apply conj.
  - intros s ev p e Hf Hp He Hrej.
    assert (Hpr : predicate_rejects s (_get_tool_error_for_predicate ev) = true).
    { unfold predicate_rejects. now rewrite Hp, He, Hrej. }
    rewrite after_tool_call_cases, Hf, Hpr. cbv beta iota delta [negb].
    destruct (AfterToolCallEvent.retry ev); [repeat split; discriminate|].
    destruct (_is_tool_retry_enabled _ _); repeat split.
  - intros ev e He. unfold _get_tool_error_for_predicate. now rewrite He.
  - intros ev pre t post He Hs Hc Hpre. unfold _get_tool_error_for_predicate.
    rewrite He, Hs, Hc. rewrite bool_decide_eq_true_2 by reflexivity.
    cbn [default from_option id]. rewrite (first_text_skips pre _ Hpre).
    reflexivity.
  - intros ev He Hs Hc. unfold _get_tool_error_for_predicate.
    rewrite He, Hs. rewrite bool_decide_eq_true_2 by reflexivity.
    destruct Hc as [Hc|(l & Hc & Hl)]; rewrite Hc; cbn [default from_option id].
    + reflexivity.
    + rewrite <- (app_nil_r l). now rewrite (first_text_skips l [] Hl).
Qed.

(** C7 at a strategy with [tool_max_attempts=3] whose predicate rejects every
    error, on the first failure of ["id-1"]. *)
Lemma C7_witness :
  let s := {| _model_max_attempts := 6; _model_initial_delay := 4;
              _model_max_delay := 240; _model_current_attempt := 0;
              _tool_max_attempts := 3; _tool_initial_delay := 1;
              _tool_max_delay := 30; _tool_should_retry := Some (fun _ => false);
              _tool_configs := ∅; _tool_enabled_tools := None;
              _tool_disabled_tools := None; _tool_attempts := ∅;
              _backwards_compatible_event_to_yield := None |} in
  let ev := tool_failure "id-1" "my_tool" in
  let '(s', r, d) := after_tool_call s ev in
  s' = s /\
  attempts_of s' (tool_use_id_of ev) = attempts_of s (tool_use_id_of ev) /\
  r = AfterToolCallEvent.retry ev /\
  (AfterToolCallEvent.retry ev = false -> r = false) /\
  d = [].
Proof.
  intros s ev.
  apply (proj1 C7_rejected_failure_is_neither_retried_nor_counted s ev
           (fun _ => false) (RuntimeError "boom")); reflexivity.
Defined.

(** ** Reset, construction and the missing identifier *)

(** C8.  The after-invocation callback returns without suspending and leaves
    the model counter at 0, no cached throttle notification and an empty
    attempt map, whatever the strategy held before. *)
Theorem C8_after_invocation_resets_state :
  forall s ev cancel,
    let '(o, w) := _handle_after_invocation (start s ev cancel) in
    o = Returned tt /\
    _model_current_attempt (self w) = 0%nat /\
    _backwards_compatible_event_to_yield (self w) = None /\
    _tool_attempts (self w) = ∅ /\
    slept w = [].
Proof. intros s ev cancel. run_task. repeat split. Qed.

(** C9.  [__init__] raises [ValueError] exactly when both lists are supplied,
    empty or not, so no event is ever delivered to such a strategy; with at
    most one list it returns a strategy. *)
Theorem C9_both_lists_is_a_configuration_error :
  forall a,
    (forall enabled disabled,
        tool_enabled_tools a = Some enabled ->
        tool_disabled_tools a = Some disabled ->
        __init__ a = inl (ValueError "Cannot specify both tool_enabled_tools and tool_disabled_tools") /\
        forall evs,
          session a evs
            = inl (ValueError "Cannot specify both tool_enabled_tools and tool_disabled_tools"))
    /\
    (tool_enabled_tools a = None \/ tool_disabled_tools a = None ->
     exists s, __init__ a = inr s /\ _tool_attempts s = ∅ /\ _model_current_attempt s = 0%nat).
Proof.
  intros a. split.
  - intros en dis He Hd. unfold session, __init__. rewrite He, Hd. split; reflexivity.
  - unfold __init__. intros [H|H]; rewrite H.
    + eexists; repeat split.
    + destruct (tool_enabled_tools a); eexists; repeat split.
Qed.

(** C9 with the allow-list [["tool1"]] and the deny-list [["tool2"]], and with
    the allow-list alone. *)
Lemma C9_witness :
  (__init__ (tool_args 3 None None (Some ["tool1"]) (Some ["tool2"]))
     = inl (ValueError "Cannot specify both tool_enabled_tools and tool_disabled_tools") /\
   forall evs,
     session (tool_args 3 None None (Some ["tool1"]) (Some ["tool2"])) evs
       = inl (ValueError "Cannot specify both tool_enabled_tools and tool_disabled_tools"))
  /\
  (exists s, __init__ (tool_args 3 None None (Some ["tool1"]) None) = inr s /\
             _tool_attempts s = ∅ /\ _model_current_attempt s = 0%nat).
Proof.
  split.
  - apply (proj1 (C9_both_lists_is_a_configuration_error
                    (tool_args 3 None None (Some ["tool1"]) (Some ["tool2"])))
             ["tool1"] ["tool2"]); reflexivity.
  - apply (proj2 (C9_both_lists_is_a_configuration_error
                    (tool_args 3 None None (Some ["tool1"]) None))).
    right. reflexivity.
Defined.

(** A failure that passes every gate stores the incremented count and changes
    nothing else of the strategy. *)
Lemma counted_failure s ev :
  AfterToolCallEvent.retry ev = false ->
  _is_tool_retry_enabled s (tool_name_of ev) = true ->
  _is_tool_error_result ev = true ->
  predicate_approves s ev ->
  fst (fst (after_tool_call s ev))
    = set_tool_attempts
        (<[tool_use_id_of ev := S (attempts_of s (tool_use_id_of ev))]> (_tool_attempts s)) s.
Proof.
  intros Hr He Hf Hp. rewrite after_tool_call_cases.
  rewrite Hr, He, Hf, (approves_not_rejects _ _ Hp). cbv beta iota zeta delta [negb].
  destruct (_get_tool_config _ _) as [[ma idl] mdl].
  destruct (ma <=? _)%Z; reflexivity.
Qed.

(** C10.  An event whose [tool_use] has no ["toolUseId"] is keyed by the empty
    string: its failure is counted under [""], so two such calls, for whatever
    tools, add to the same counter.  With [tool_max_attempts=2] the first
    failure of an identifier-less call to one tool is retried and the first
    failure of an identifier-less call to another tool is not, because it is
    already the second under the shared key. *)
Theorem C10_calls_without_identifier_share_a_counter :
  (forall s ev,
      toolUseId (AfterToolCallEvent.tool_use ev) = None ->
      AfterToolCallEvent.retry ev = false ->
      _is_tool_retry_enabled s (tool_name_of ev) = true ->
      _is_tool_error_result ev = true ->
      predicate_approves s ev ->
      _tool_attempts (fst (fst (after_tool_call s ev)))
        = <["" := S (attempts_of s "")]> (_tool_attempts s))
  /\
  (forall s ev1 ev2,
      toolUseId (AfterToolCallEvent.tool_use ev1) = None ->
      toolUseId (AfterToolCallEvent.tool_use ev2) = None ->
      AfterToolCallEvent.retry ev1 = false ->
      AfterToolCallEvent.retry ev2 = false ->
      _is_tool_retry_enabled s (tool_name_of ev1) = true ->
      _is_tool_retry_enabled s (tool_name_of ev2) = true ->
      _is_tool_error_result ev1 = true ->
      _is_tool_error_result ev2 = true ->
      predicate_approves s ev1 ->
      predicate_approves s ev2 ->
      let s1 := fst (fst (after_tool_call s ev1)) in
      let s2 := fst (fst (after_tool_call s1 ev2)) in
      attempts_of s2 "" = S (S (attempts_of s ""))
      /\ forall id', id' <> "" -> _tool_attempts s2 !! id' = _tool_attempts s !! id')
  /\
  (snd (deliver_tool_events (tool_strategy 2 ∅)
          [tool_failure_without_id "tool_a"; tool_failure_without_id "tool_b"])
     = [(true, [1%Q]); (false, [])]
   /\
   snd (deliver_tool_events (tool_strategy 2 ∅)
          [tool_failure "id-a" "tool_a"; tool_failure "id-b" "tool_b"])
     = [(true, [1%Q]); (true, [1%Q])]).
Proof.
  assert (Hkey : forall ev, toolUseId (AfterToolCallEvent.tool_use ev) = None ->
                            tool_use_id_of ev = "").
  { intros ev H. unfold tool_use_id_of. now rewrite H. }
  repeat apply conj.
  - intros s ev Hid Hr He Hf Hp.
    rewrite (counted_failure s ev Hr He Hf Hp), (Hkey ev Hid). reflexivity.
  - intros s ev1 ev2 Hid1 Hid2 Hr1 Hr2 He1 He2 Hf1 Hf2 Hp1 Hp2 s1 s2.
    assert (Hs1 : s1 = set_tool_attempts (<["" := S (attempts_of s "")]> (_tool_attempts s)) s).
    { subst s1. rewrite (counted_failure s ev1 Hr1 He1 Hf1 Hp1), (Hkey ev1 Hid1). reflexivity. }
    assert (Hs2 : s2 = set_tool_attempts (<["" := S (attempts_of s1 "")]> (_tool_attempts s1)) s1).
    { subst s2. rewrite (counted_failure s1 ev2 Hr2), (Hkey ev2 Hid2); try reflexivity;
        try assumption; rewrite Hs1; assumption. }
    rewrite Hs2. unfold attempts_of at 1. cbn [_tool_attempts set_tool_attempts].
    rewrite lookup_insert_eq. cbn [default from_option id].
    split.
    + rewrite Hs1. unfold attempts_of at 1. cbn [_tool_attempts set_tool_attempts].
      now rewrite lookup_insert_eq.
    + intros id' Hne. rewrite lookup_insert_ne by congruence.
      rewrite Hs1. cbn [_tool_attempts set_tool_attempts].
      now rewrite lookup_insert_ne by congruence.
  - vm_compute. reflexivity.
  - vm_compute. reflexivity.
Qed.

(** C10 at two identifier-less failures, of ["tool_a"] and of ["tool_b"],
    delivered to a fresh strategy with [tool_max_attempts=5]. *)
Lemma C10_witness :
  let s := tool_strategy 5 ∅ in
  let s1 := fst (fst (after_tool_call s (tool_failure_without_id "tool_a"))) in
  let s2 := fst (fst (after_tool_call s1 (tool_failure_without_id "tool_b"))) in
  attempts_of s2 "" = S (S (attempts_of s ""))
  /\ forall id', id' <> "" -> _tool_attempts s2 !! id' = _tool_attempts s !! id'.
Proof.
  intros s.
  apply (proj1 (proj2 C10_calls_without_identifier_share_a_counter) s
           (tool_failure_without_id "tool_a") (tool_failure_without_id "tool_b"));
    try reflexivity; intros p e Hp; discriminate Hp.
Defined.

(** * Further properties of the callbacks *)

(** ** The callbacks in full, cancellation included *)

Lemma tool_call_cases s ev cancel :
  let id := tool_use_id_of ev in
  let m := _tool_attempts s in
  _handle_after_tool_call (start s ev cancel) =
    if AfterToolCallEvent.retry ev then (Returned tt, start s ev cancel)
    else if negb (_is_tool_retry_enabled s (tool_name_of ev)) then (Returned tt, start s ev cancel)
    else if negb (_is_tool_error_result ev) then
      (Returned tt,
       start (if bool_decide (is_Some (m !! id)) then set_tool_attempts (delete id m) s else s)
             ev cancel)
    else if predicate_rejects s (_get_tool_error_for_predicate ev) then
      (Returned tt, start s ev cancel)
    else
      let n := S (attempts_of s id) in
      let s' := set_tool_attempts (<[id := n]> m) s in
      let '(max_attempts, initial_delay, max_delay) := _get_tool_config s (tool_name_of ev) in
      let d := _calculate_tool_delay (n - 1) initial_delay max_delay in
      if (max_attempts <=? Z.of_nat n)%Z then (Returned tt, start s' ev cancel)
      else if cancel then
        (CancelledError, {| self := s'; event := ev; slept := [d]; cancel_in_sleep := true |})
      else
        (Returned tt, {| self := s'; event := AfterToolCallEvent.set_retry true ev;
                         slept := [d]; cancel_in_sleep := false |}).
Proof.
  intros id m. subst id m.
  unfold tool_name_of, tool_use_id_of, attempts_of.
  destruct (AfterToolCallEvent.retry ev) eqn:Hr.
  { run_task. rewrite Hr. reflexivity. }
  destruct (_is_tool_retry_enabled s _) eqn:He; cbv beta iota delta [negb].
  2:{ run_task. rewrite Hr, He. reflexivity. }
  destruct (_is_tool_error_result ev) eqn:Hf; cbv beta iota delta [negb].
  2:{ run_task. rewrite Hr, He, Hf. run_task.
      destruct (_get_tool_config s _) as [[ma idl] mdl].
      destruct (bool_decide _); reflexivity. }
  destruct (predicate_rejects s (_get_tool_error_for_predicate ev)) eqn:Hp.
  { run_task. rewrite Hr, He, Hf, Hp. run_task.
    destruct (_get_tool_config s _) as [[ma idl] mdl]. reflexivity. }
  destruct (_get_tool_config s _) as [[ma idl] mdl] eqn:Hc.
  cbv zeta.
  rewrite (tool_failure_step s ev cancel ma idl mdl Hr He Hf Hp Hc).
  unfold tool_name_of, tool_use_id_of, attempts_of, start.
  destruct (ma <=? _)%Z; [reflexivity|]. destruct cancel; reflexivity.
Qed.

Lemma model_call_cases s ev cancel :
  _handle_after_model_call (start s ev cancel) =
    if AfterModelCallEvent.retry ev then (Returned tt, start s ev cancel)
    else if bool_decide (AfterModelCallEvent.stop_response ev <> None)
            || negb (is_ModelThrottledException (AfterModelCallEvent.exception ev)) then
      (Returned tt,
       start (set_backwards_compatible_event_to_yield None (set_model_current_attempt 0 s))
             ev cancel)
    else
      let c := _model_current_attempt s in
      let d := _calculate_model_delay s c in
      if (_model_max_attempts s <=? Z.of_nat c)%Z then (Returned tt, start s ev cancel)
      else if cancel then
        (CancelledError, {| self := s; event := ev; slept := [d]; cancel_in_sleep := true |})
      else
        (Returned tt,
         {| self := set_model_current_attempt (c + 1)
                      (set_backwards_compatible_event_to_yield
                         (Some {| delay := py_int d |}) s);
            event := AfterModelCallEvent.set_retry true ev;
            slept := [d]; cancel_in_sleep := false |}).
Proof.
  destruct (AfterModelCallEvent.retry ev) eqn:Hr.
  { run_task. rewrite Hr. reflexivity. }
  destruct (bool_decide (AfterModelCallEvent.stop_response ev <> None)) eqn:Hs;
    cbv beta iota delta [orb].
  { run_task. rewrite Hr, Hs. reflexivity. }
  destruct (is_ModelThrottledException (AfterModelCallEvent.exception ev)) eqn:Ht;
    cbv beta iota delta [negb].
  2:{ run_task. rewrite Hr, Hs, Ht. reflexivity. }
  apply bool_decide_eq_false in Hs.
  assert (Hn : AfterModelCallEvent.stop_response ev = None).
  { destruct (AfterModelCallEvent.stop_response ev); [exfalso; apply Hs; discriminate|reflexivity]. }
  cbv zeta. rewrite (model_throttled_step s ev cancel Hr Hn Ht).
  destruct (_ <=? _)%Z; [reflexivity|]. destruct cancel; reflexivity.
Qed.

(** ** Exponential backoff with a cap *)

Lemma Qltb_true x y : Qltb x y = true <-> (x < y)%Q.
Proof.
  unfold Qltb. rewrite negb_true_iff. split.
  - intros H. apply Qnot_le_lt. intros Hle. apply Qle_bool_iff in Hle. congruence.
  - intros H. destruct (Qle_bool y x) eqn:E; [|reflexivity].
    apply Qle_bool_iff in E. exfalso. apply (Qlt_not_le _ _ H E).
Qed.

Lemma Qltb_false x y : Qltb x y = false <-> (y <= x)%Q.
Proof.
  unfold Qltb. rewrite negb_false_iff. apply Qle_bool_iff.
Qed.

Lemma py_min_le_r a b : (py_min a b <= b)%Q.
Proof.
  unfold py_min. destruct (Qltb b a) eqn:E; [apply Qle_refl|].
  now apply Qltb_false in E.
Qed.

Lemma py_min_le_l a b : (py_min a b <= a)%Q.
Proof.
  unfold py_min. destruct (Qltb b a) eqn:E; [|apply Qle_refl].
  apply Qltb_true in E. now apply Qlt_le_weak.
Qed.

Lemma py_min_mono a a' b : (a <= a')%Q -> (py_min a b <= py_min a' b)%Q.
Proof.
  intros H. unfold py_min.
  destruct (Qltb b a) eqn:E, (Qltb b a') eqn:E'.
  - apply Qle_refl.
  - apply Qltb_true in E. apply Qltb_false in E'. lra.
  - apply Qltb_false in E. exact E.
  - exact H.
Qed.

Lemma pow2_pos a : (0 < pow2 a)%Q.
Proof.
  unfold pow2. change 0%Q with (inject_Z 0). rewrite <- Zlt_Qlt.
  apply Z.pow_pos_nonneg; lia.
Qed.

Lemma pow2_succ a : (pow2 (S a) == 2 * pow2 a)%Q.
Proof.
  unfold pow2. rewrite Nat2Z.inj_succ, Z.pow_succ_r by lia.
  rewrite inject_Z_mult. reflexivity.
Qed.

Lemma pow2_mono a b : (a <= b)%nat -> (pow2 a <= pow2 b)%Q.
Proof.
  intros H. unfold pow2. rewrite <- Zle_Qle. apply Z.pow_le_mono_r; lia.
Qed.

Lemma scaled_mono initial a b :
  (0 <= initial)%Q -> (a <= b)%nat -> (initial * pow2 a <= initial * pow2 b)%Q.
Proof.
  intros Hi Hab. pose proof (pow2_mono a b Hab). nra.
Qed.

(** X1.  Neither delay function ever returns more than its cap, nor more than
    the uncapped product, for any attempt number and any configuration. *)
Theorem X1_delay_never_exceeds_cap :
  forall attempt initial_delay max_delay s,
    (_calculate_tool_delay attempt initial_delay max_delay <= max_delay)%Q /\
    (_calculate_tool_delay attempt initial_delay max_delay <= initial_delay * pow2 attempt)%Q /\
    (_calculate_model_delay s attempt <= _model_max_delay s)%Q /\
    (_calculate_model_delay s attempt <= _model_initial_delay s * pow2 attempt)%Q.
Proof.
  intros attempt i m s. unfold _calculate_tool_delay, _calculate_model_delay. cbv zeta.
  repeat split; first [apply py_min_le_r | apply py_min_le_l].
Qed.

(** X2.  With a base delay that is not negative, the delay never shrinks from
    one attempt to a later one. *)
Theorem X2_delay_is_monotone :
  forall a b initial_delay max_delay,
    (0 <= initial_delay)%Q ->
    (a <= b)%nat ->
    (_calculate_tool_delay a initial_delay max_delay
       <= _calculate_tool_delay b initial_delay max_delay)%Q.
Proof.
  intros a b i m Hi Hab. unfold _calculate_tool_delay. cbv zeta.
  apply py_min_mono. now apply scaled_mono.
Qed.

Lemma X2_witness :
  (_calculate_tool_delay 1 1 30 <= _calculate_tool_delay 6 1 30)%Q.
Proof.
  apply (X2_delay_is_monotone 1 6 1%Q 30%Q).
  - discriminate.
  - lia.
Defined.

(** X3.  With a base delay that is not negative: attempt 0 sleeps the base
    delay when that is within the cap; while the doubled product stays within
    the cap each attempt sleeps twice the previous delay; and once the product
    has passed the cap every later attempt sleeps exactly the cap. *)
Theorem X3_delay_doubles_then_plateaus :
  forall a initial_delay max_delay,
    (0 <= initial_delay)%Q ->
    ((initial_delay <= max_delay)%Q ->
       (_calculate_tool_delay 0 initial_delay max_delay == initial_delay)%Q) /\
    ((initial_delay * pow2 (S a) <= max_delay)%Q ->
       (_calculate_tool_delay (S a) initial_delay max_delay
          == 2 * _calculate_tool_delay a initial_delay max_delay)%Q) /\
    ((max_delay < initial_delay * pow2 a)%Q ->
       forall b, (a <= b)%nat -> _calculate_tool_delay b initial_delay max_delay = max_delay).
Proof.
  intros a i m Hi. unfold _calculate_tool_delay, py_min. cbv zeta. repeat split.
  - intros Hle. assert (Hp : (i * pow2 0 == i)%Q)
      by (unfold pow2; change (inject_Z (2 ^ Z.of_nat 0)) with 1%Q; ring).
    destruct (Qltb m (i * pow2 0)) eqn:E; [|exact Hp].
    apply Qltb_true in E. lra.
  - intros Hle. pose proof (pow2_succ a) as Hs. pose proof (pow2_pos a) as Hpos.
    assert (Hlo : (i * pow2 a <= m)%Q) by nra.
    destruct (Qltb m (i * pow2 (S a))) eqn:E1; [apply Qltb_true in E1; lra|].
    destruct (Qltb m (i * pow2 a)) eqn:E2; [apply Qltb_true in E2; lra|].
    rewrite Hs. ring.
  - intros Hlt b Hab. pose proof (scaled_mono i a b Hi Hab) as Hm.
    destruct (Qltb m (i * pow2 b)) eqn:E; [reflexivity|].
    apply Qltb_false in E. lra.
Qed.

Lemma X3_witness :
  ((1 <= 30)%Q -> (_calculate_tool_delay 0 1 30 == 1)%Q) /\
  ((1 * pow2 (S 3) <= 30)%Q ->
     (_calculate_tool_delay (S 3) 1 30 == 2 * _calculate_tool_delay 3 1 30)%Q) /\
  ((30 < 1 * pow2 3)%Q ->
     forall b, (3 <= b)%nat -> _calculate_tool_delay b 1 30 = 30%Q).
Proof.
  apply (X3_delay_doubles_then_plateaus 3 1%Q 30%Q). discriminate.
Defined.

(** ** What a callback can change *)

(** Whatever the event and whether the task is cancelled or not, a callback
    assigns at most the model counter, the cached notification and the attempt
    map. *)
Lemma dispatch_assigns_state_only s h :
  exists n e m,
    dispatch s h
      = set_tool_attempts m
          (set_backwards_compatible_event_to_yield e (set_model_current_attempt n s)).
Proof.
  assert (Hid : forall s0, s0 = set_tool_attempts (_tool_attempts s0)
                      (set_backwards_compatible_event_to_yield
                         (_backwards_compatible_event_to_yield s0)
                         (set_model_current_attempt (_model_current_attempt s0) s0)))
    by (intros [ ]; reflexivity).
  assert (Hm : forall m, exists n e m',
             set_tool_attempts m s
             = set_tool_attempts m'
                 (set_backwards_compatible_event_to_yield e (set_model_current_attempt n s))).
  { intros m. exists (_model_current_attempt s), (_backwards_compatible_event_to_yield s), m.
    destruct s; reflexivity. }
  destruct h as [[ev|ev|ev] cancel]; unfold dispatch.
  - rewrite model_call_cases.
    destruct (AfterModelCallEvent.retry ev); [cbn [snd self start]; eauto|].
    destruct (_ || _).
    { cbn [snd self start]. exists 0%nat, None, (_tool_attempts s). destruct s; reflexivity. }
    cbv zeta. destruct (_ <=? _)%Z; [cbn [snd self start]; eauto|].
    destruct cancel; cbn [snd self]; [eauto|].
    exists (_model_current_attempt s + 1)%nat,
      (Some {| delay := py_int (_calculate_model_delay s (_model_current_attempt s)) |}),
      (_tool_attempts s).
    destruct s; reflexivity.
  - rewrite tool_call_cases.
    destruct (AfterToolCallEvent.retry ev); [cbn [snd self start]; eauto|].
    destruct (negb (_is_tool_retry_enabled _ _)); [cbn [snd self start]; eauto|].
    destruct (negb (_is_tool_error_result ev)).
    { cbn [snd self start]. destruct (bool_decide _); eauto. }
    destruct (predicate_rejects _ _); [cbn [snd self start]; eauto|].
    destruct (_get_tool_config _ _) as [[ma idl] mdl]. cbv zeta.
    destruct (_ <=? _)%Z; [cbn [snd self start]; eauto|].
    destruct cancel; cbn [snd self]; eauto.
  - run_task. exists 0%nat, None, ∅. reflexivity.
Qed.

Lemma deliver_assigns_state_only hs : forall s,
  exists n e m,
    deliver s hs
      = set_tool_attempts m
          (set_backwards_compatible_event_to_yield e (set_model_current_attempt n s)).
Proof.
  induction hs as [|h hs IH]; intros s.
  - exists (_model_current_attempt s), (_backwards_compatible_event_to_yield s), (_tool_attempts s).
    destruct s; reflexivity.
  - unfold deliver in *. cbn [fold_left].
    destruct (dispatch_assigns_state_only s h) as (n & e & m & ->).
    destruct (IH (set_tool_attempts m
                    (set_backwards_compatible_event_to_yield e (set_model_current_attempt n s))))
      as (n' & e' & m' & ->).
    exists n', e', m'. reflexivity.
Qed.

(** X4.  The configuration is immutable: after any history of model, tool and
    invocation events, with any of the callbacks cancelled in its sleep, every
    attribute set from the constructor's arguments is what it was, and so are
    the answers of [_get_tool_config] and [_is_tool_retry_enabled]. *)
Theorem X4_configuration_is_immutable :
  forall s hs,
    same_configuration s (deliver s hs) /\
    (forall tool, _get_tool_config (deliver s hs) tool = _get_tool_config s tool) /\
    (forall tool, _is_tool_retry_enabled (deliver s hs) tool = _is_tool_retry_enabled s tool).
Proof.
  intros s hs. destruct (deliver_assigns_state_only hs s) as (n & e & m & ->).
  unfold same_configuration. repeat split.
Qed.

(** A model event leaves the attempt map alone and a tool event leaves the
    model state alone. *)
Lemma sub_policies_separate :
  forall s cancel,
    (forall ev, _tool_attempts (dispatch s (ModelCall ev, cancel)) = _tool_attempts s) /\
    (forall ev,
        _model_current_attempt (dispatch s (ToolCall ev, cancel)) = _model_current_attempt s /\
        _backwards_compatible_event_to_yield (dispatch s (ToolCall ev, cancel))
          = _backwards_compatible_event_to_yield s).
Proof.
  intros s cancel. split; intros ev; unfold dispatch.
  - rewrite model_call_cases.
    destruct (AfterModelCallEvent.retry ev); [reflexivity|].
    destruct (_ || _); [reflexivity|]. cbv zeta.
    destruct (_ <=? _)%Z; [reflexivity|]. destruct cancel; reflexivity.
  - rewrite tool_call_cases.
    destruct (AfterToolCallEvent.retry ev); [split; reflexivity|].
    destruct (negb (_is_tool_retry_enabled _ _)); [split; reflexivity|].
    destruct (negb (_is_tool_error_result ev)).
    { cbn [snd self start]. destruct (bool_decide _); split; reflexivity. }
    destruct (predicate_rejects _ _); [split; reflexivity|].
    destruct (_get_tool_config _ _) as [[ma idl] mdl]. cbv zeta.
    destruct (_ <=? _)%Z; [split; reflexivity|]. destruct cancel; split; reflexivity.
Qed.

(** X5.  The two sub-policies keep separate state: a model event never
    changes the attempt map, and a tool event never changes the model counter
    or the cached notification, cancelled or not. *)
Theorem X5_model_and_tool_state_are_separate :
  forall s cancel,
    (forall ev, _tool_attempts (dispatch s (ModelCall ev, cancel)) = _tool_attempts s) /\
    (forall ev,
        _model_current_attempt (dispatch s (ToolCall ev, cancel)) = _model_current_attempt s /\
        _backwards_compatible_event_to_yield (dispatch s (ToolCall ev, cancel))
          = _backwards_compatible_event_to_yield s).
Proof. exact sub_policies_separate. Qed.

(** X6.  State does not leak across invocations: whatever events a strategy
    built by [__init__] has seen, the after-invocation callback returns it to
    exactly the strategy [__init__] built; in general a reset after a history
    gives what a reset before it gives. *)
Theorem X6_reset_restores_the_constructed_strategy :
  forall a s0 hs ev cancel,
    __init__ a = inr s0 ->
    deliver s0 (hs ++ [(Invocation ev, cancel)]) = s0 /\
    _reset_state (deliver s0 hs) = s0 /\
    (forall s, _reset_state (deliver s hs) = _reset_state s).
Proof.
  intros a s0 hs ev cancel Hinit.
  assert (Hgen : forall s, _reset_state (deliver s hs) = _reset_state s).
  { intros s. destruct (deliver_assigns_state_only hs s) as (n & e & m & ->). reflexivity. }
  assert (H0 : _reset_state s0 = s0).
  { unfold __init__ in Hinit.
    destruct (tool_enabled_tools a), (tool_disabled_tools a);
      first [discriminate Hinit | injection Hinit as <-; reflexivity]. }
  repeat split.
  - unfold deliver. rewrite fold_left_app. cbn [fold_left dispatch].
    fold (deliver s0 hs). run_task. fold (_reset_state (deliver s0 hs)).
    now rewrite Hgen.
  - now rewrite Hgen.
  - exact Hgen.
Qed.

Lemma X6_witness :
  deliver default_strategy
    ([(ModelCall model_throttled, false); (ToolCall (tool_failure "id-1" "my_tool"), true)]
       ++ [(Invocation {| AfterInvocationEvent.result := None |}, false)])
    = default_strategy /\
  _reset_state (deliver default_strategy
                  [(ModelCall model_throttled, false);
                   (ToolCall (tool_failure "id-1" "my_tool"), true)]) = default_strategy /\
  (forall s, _reset_state (deliver s [(ModelCall model_throttled, false);
                                      (ToolCall (tool_failure "id-1" "my_tool"), true)])
             = _reset_state s).
Proof.
  apply (X6_reset_restores_the_constructed_strategy default_args default_strategy
           [(ModelCall model_throttled, false); (ToolCall (tool_failure "id-1" "my_tool"), true)]
           {| AfterInvocationEvent.result := None |} false).
  reflexivity.
Defined.

(** ** Invariants of the attempt map *)

Lemma dispatch_counts_positive s h : counts_positive s -> counts_positive (dispatch s h).
Proof.
  intros Hpos. destruct h as [[ev|ev|ev] cancel].
  - intros id n. rewrite (proj1 (sub_policies_separate s cancel) ev).
    apply Hpos.
  - unfold dispatch. rewrite tool_call_cases.
    destruct (AfterToolCallEvent.retry ev); [exact Hpos|].
    destruct (negb (_is_tool_retry_enabled _ _)); [exact Hpos|].
    destruct (negb (_is_tool_error_result ev)).
    { cbn [snd self start]. destruct (bool_decide _); [|exact Hpos].
      intros id n. cbn. intros H. apply lookup_delete_Some in H as [_ H]. now apply Hpos in H. }
    destruct (predicate_rejects _ _); [exact Hpos|].
    destruct (_get_tool_config _ _) as [[ma idl] mdl]. cbv zeta.
    assert (Hins : counts_positive
                     (set_tool_attempts
                        (<[tool_use_id_of ev := S (attempts_of s (tool_use_id_of ev))]>
                           (_tool_attempts s)) s)).
    { intros id n. cbn. intros H. apply lookup_insert_Some in H as [[_ <-]|[_ H]]; [lia|].
      now apply Hpos in H. }
    destruct (_ <=? _)%Z; [exact Hins|]. destruct cancel; exact Hins.
  - unfold dispatch. run_task. intros id n. cbn. rewrite lookup_empty. discriminate.
Qed.

(** X7.  An identifier is on record only with a count of at least one: the
    invariant holds for the strategy [__init__] builds and is kept by every
    callback on every event, cancelled or not, so it holds after any history. *)
Theorem X7_recorded_counts_are_positive :
  (forall a s0, __init__ a = inr s0 -> counts_positive s0) /\
  (forall hs s, counts_positive s -> counts_positive (deliver s hs)).
Proof.
  split.
  - intros a s0 Hinit id n. unfold __init__ in Hinit.
    destruct (tool_enabled_tools a), (tool_disabled_tools a);
      first [discriminate Hinit | injection Hinit as <-; cbn; rewrite lookup_empty; discriminate].
  - induction hs as [|h hs IH]; intros s Hpos; [exact Hpos|].
    unfold deliver in *. cbn [fold_left]. apply IH. now apply dispatch_counts_positive.
Qed.

Lemma X7_witness :
  counts_positive
    (deliver (tool_strategy 3 ∅)
       [(ToolCall (tool_failure "id-1" "my_tool"), true);
        (ToolCall (tool_success "id-2" "my_tool"), false);
        (ModelCall model_throttled, false)]).
Proof.
  apply (proj2 X7_recorded_counts_are_positive).
  intros id n H. cbn in H. rewrite lookup_empty in H. discriminate H.
Defined.

(** ** What the callbacks never do *)

(** X8.  First claim wins: a callback handed an event whose retry flag is
    already set returns at once, leaving the strategy and the event untouched
    and sleeping nothing, even while a cancellation is pending. *)
Theorem X8_already_claimed_retry_is_a_no_op :
  (forall s ev cancel,
      AfterToolCallEvent.retry ev = true ->
      _handle_after_tool_call (start s ev cancel) = (Returned tt, start s ev cancel)) /\
  (forall s ev cancel,
      AfterModelCallEvent.retry ev = true ->
      _handle_after_model_call (start s ev cancel) = (Returned tt, start s ev cancel)).
Proof.
  split; intros s ev cancel Hr.
  - rewrite tool_call_cases, Hr. reflexivity.
  - rewrite model_call_cases, Hr. reflexivity.
Qed.

Lemma X8_witness :
  _handle_after_tool_call
    (start (tool_strategy 3 {["id-1" := 1%nat]})
       (AfterToolCallEvent.set_retry true (tool_failure "id-1" "my_tool")) true)
  = (Returned tt,
     start (tool_strategy 3 {["id-1" := 1%nat]})
       (AfterToolCallEvent.set_retry true (tool_failure "id-1" "my_tool")) true).
Proof.
  apply (proj1 X8_already_claimed_retry_is_a_no_op). reflexivity.
Defined.

(** X9.  A callback sleeps at most once, and a retry costs exactly one sleep:
    for an event that arrives with the flag unset, the callback that returns
    has set the flag if and only if it slept; a callback can only be cancelled
    when a cancellation was pending at its one sleep, and then it leaves the
    event as it was handed over. *)
Theorem X9_one_sleep_per_retry :
  (forall s ev cancel,
      let '(o, w) := _handle_after_tool_call (start s ev cancel) in
      (length (slept w) <= 1)%nat /\
      (o = CancelledError -> cancel = true /\ event w = ev /\ length (slept w) = 1%nat) /\
      (AfterToolCallEvent.retry ev = false -> o = Returned tt ->
         (AfterToolCallEvent.retry (event w) = true <-> length (slept w) = 1%nat))) /\
  (forall s ev cancel,
      let '(o, w) := _handle_after_model_call (start s ev cancel) in
      (length (slept w) <= 1)%nat /\
      (o = CancelledError -> cancel = true /\ event w = ev /\ length (slept w) = 1%nat) /\
      (AfterModelCallEvent.retry ev = false -> o = Returned tt ->
         (AfterModelCallEvent.retry (event w) = true <-> length (slept w) = 1%nat))).
Proof.
  split; intros s ev cancel.
  - rewrite tool_call_cases.
    destruct (AfterToolCallEvent.retry ev) eqn:Hr.
    { cbn. split; [lia|]. split; [discriminate|]. discriminate. }
    assert (Hquiet : forall s',
               (length (slept (start s' ev cancel)) <= 1)%nat /\
               (Returned tt = @CancelledError unit ->
                  cancel = true /\ event (start s' ev cancel) = ev /\
                  length (slept (start s' ev cancel)) = 1%nat) /\
               (false = false -> Returned tt = Returned tt ->
                  (AfterToolCallEvent.retry (event (start s' ev cancel)) = true <->
                   length (slept (start s' ev cancel)) = 1%nat))).
    { intros s'. cbn. split; [lia|]. split; [discriminate|]. intros _ _.
      rewrite Hr. split; discriminate. }
    destruct (negb (_is_tool_retry_enabled _ _)); [apply Hquiet|].
    destruct (negb (_is_tool_error_result ev)); [apply Hquiet|].
    destruct (predicate_rejects _ _); [apply Hquiet|].
    destruct (_get_tool_config _ _) as [[ma idl] mdl]. cbv zeta.
    destruct (_ <=? _)%Z; [apply Hquiet|].
    destruct cancel; cbn.
    + split; [lia|]. split; [auto|]. discriminate.
    + split; [lia|]. split; [discriminate|]. intros _ _. split; reflexivity.
  - rewrite model_call_cases.
    destruct (AfterModelCallEvent.retry ev) eqn:Hr.
    { cbn. split; [lia|]. split; [discriminate|]. discriminate. }
    assert (Hquiet : forall s',
               (length (slept (start s' ev cancel)) <= 1)%nat /\
               (Returned tt = @CancelledError unit ->
                  cancel = true /\ event (start s' ev cancel) = ev /\
                  length (slept (start s' ev cancel)) = 1%nat) /\
               (false = false -> Returned tt = Returned tt ->
                  (AfterModelCallEvent.retry (event (start s' ev cancel)) = true <->
                   length (slept (start s' ev cancel)) = 1%nat))).
    { intros s'. cbn. split; [lia|]. split; [discriminate|]. intros _ _.
      rewrite Hr. split; discriminate. }
    destruct (_ || _); [apply Hquiet|]. cbv zeta.
    destruct (_ <=? _)%Z; [apply Hquiet|].
    destruct cancel; cbn.
    + split; [lia|]. split; [auto|]. discriminate.
    + split; [lia|]. split; [discriminate|]. intros _ _. split; reflexivity.
Qed.

Lemma X9_witness :
  let '(o, w) := _handle_after_tool_call
                   (start (tool_strategy 3 ∅) (tool_failure "id-1" "my_tool") false) in
  (length (slept w) <= 1)%nat /\
  (o = CancelledError ->
     false = true /\ event w = tool_failure "id-1" "my_tool" /\ length (slept w) = 1%nat) /\
  (AfterToolCallEvent.retry (tool_failure "id-1" "my_tool") = false -> o = Returned tt ->
     (AfterToolCallEvent.retry (event w) = true <-> length (slept w) = 1%nat)).
Proof.
  exact (proj1 X9_one_sleep_per_retry (tool_strategy 3 ∅) (tool_failure "id-1" "my_tool") false).
Defined.

(** ** The retry budget *)

(** A failure event of [uid] for [tool] that passes the flag and predicate
    gates of a strategy. *)
Lemma counted_failure_outcome s ev ma idl mdl :
  AfterToolCallEvent.retry ev = false ->
  _is_tool_retry_enabled s (tool_name_of ev) = true ->
  _is_tool_error_result ev = true ->
  predicate_rejects s (_get_tool_error_for_predicate ev) = false ->
  _get_tool_config s (tool_name_of ev) = (ma, idl, mdl) ->
  after_tool_call s ev
    = (set_tool_attempts
         (<[tool_use_id_of ev := S (attempts_of s (tool_use_id_of ev))]> (_tool_attempts s)) s,
       fst (nth_failure_outcome (attempts_of s (tool_use_id_of ev)) ma idl mdl 0),
       snd (nth_failure_outcome (attempts_of s (tool_use_id_of ev)) ma idl mdl 0)).
Proof.
  intros Hr He Hf Hp Hc. rewrite after_tool_call_cases, Hr, He, Hf, Hp, Hc.
  cbv beta iota zeta delta [negb]. unfold nth_failure_outcome.
  rewrite Nat.add_0_r, Nat.sub_succ, Nat.sub_0_r.
  destruct (_ <=? _)%Z; reflexivity.
Qed.

(** X10.  The retry budget of a tool call.  When a run of failure events of
    one identifier, all passing the gates, is delivered to a strategy that has
    [c] attempts on record for it, the [i]-th event (from 0) is retried exactly
    when [c + i + 1] is below the effective [max_attempts], after a sleep of
    the delay of attempt [c + i]; every event is counted, retried or not. *)
Theorem X10_tool_retry_budget :
  forall evs s uid tool ma idl mdl,
    _is_tool_retry_enabled s tool = true ->
    _get_tool_config s tool = (ma, idl, mdl) ->
    Forall (fun ev => tool_use_id_of ev = uid /\ tool_name_of ev = tool /\
                      AfterToolCallEvent.retry ev = false /\
                      _is_tool_error_result ev = true /\
                      predicate_rejects s (_get_tool_error_for_predicate ev) = false) evs ->
    snd (deliver_tool_events s evs)
      = map (nth_failure_outcome (attempts_of s uid) ma idl mdl) (seq 0 (length evs)) /\
    (evs <> [] ->
     _tool_attempts (fst (deliver_tool_events s evs)) !! uid
       = Some (attempts_of s uid + length evs)%nat).
Proof.
  induction evs as [|ev evs IH]; intros s uid tool ma idl mdl He Hc Hall.
  - split; [reflexivity|congruence].
  - inversion Hall as [|? ? (Hid & Hn & Hr & Hf & Hp) Hrest]; subst.
    cbn [deliver_tool_events length seq map].
    rewrite (counted_failure_outcome s ev ma idl mdl Hr He Hf Hp Hc).
    set (s1 := set_tool_attempts _ s).
    assert (Hc1 : attempts_of s1 (tool_use_id_of ev) = S (attempts_of s (tool_use_id_of ev))).
    { unfold attempts_of at 1. subst s1. cbn. now rewrite lookup_insert_eq. }
    specialize (IH s1 (tool_use_id_of ev) (tool_name_of ev) ma idl mdl He Hc Hrest).
    destruct IH as [IHo IHc].
    destruct (deliver_tool_events s1 evs) as [s2 out] eqn:Hd. cbn [fst snd] in *.
    split.
    + f_equal.
      * unfold nth_failure_outcome. now destruct (_ <=? _)%Z.
      * rewrite IHo, <- seq_shift, map_map, Hc1. apply map_ext. intros i.
        unfold nth_failure_outcome. now rewrite Nat.add_succ_r.
    + intros _. destruct evs as [|ev' evs'].
      * cbn in Hd. injection Hd as <- _. subst s1. cbn.
        rewrite lookup_insert_eq. f_equal. lia.
      * rewrite IHc by discriminate. rewrite Hc1. f_equal. cbn [length]. lia.
Qed.

Lemma X10_witness :
  snd (deliver_tool_events (tool_strategy 3 ∅)
         [tool_failure "id-1" "my_tool"; tool_failure "id-1" "my_tool";
          tool_failure "id-1" "my_tool"; tool_failure "id-1" "my_tool"])
    = map (nth_failure_outcome (attempts_of (tool_strategy 3 ∅) "id-1") 3 1 30)
          (seq 0 4) /\
  ([tool_failure "id-1" "my_tool"; tool_failure "id-1" "my_tool";
    tool_failure "id-1" "my_tool"; tool_failure "id-1" "my_tool"] <> [] ->
   _tool_attempts
     (fst (deliver_tool_events (tool_strategy 3 ∅)
             [tool_failure "id-1" "my_tool"; tool_failure "id-1" "my_tool";
              tool_failure "id-1" "my_tool"; tool_failure "id-1" "my_tool"])) !! "id-1"
     = Some (attempts_of (tool_strategy 3 ∅) "id-1" + 4)%nat).
Proof.
  apply (X10_tool_retry_budget
           [tool_failure "id-1" "my_tool"; tool_failure "id-1" "my_tool";
            tool_failure "id-1" "my_tool"; tool_failure "id-1" "my_tool"]
           (tool_strategy 3 ∅) "id-1" "my_tool" 3%Z 1%Q 30%Q).
  - reflexivity.
  - reflexivity.
  - repeat constructor.
Defined.

(** X11.  The retry budget of the model.  When a run of throttled model calls
    is delivered to a strategy whose counter is [c], the [i]-th call (from 0)
    is retried exactly when [c + i] is below [model_max_attempts], after a
    sleep of the delay of attempt [c + i]; the counter grows by one per retry
    and stops at [model_max_attempts]. *)
Theorem X11_model_retry_budget :
  forall evs s,
    Forall (fun ev => AfterModelCallEvent.retry ev = false /\
                      AfterModelCallEvent.stop_response ev = None /\
                      is_ModelThrottledException (AfterModelCallEvent.exception ev) = true) evs ->
    snd (deliver_model_events s evs)
      = map (nth_throttle_outcome s (_model_current_attempt s)) (seq 0 (length evs)) /\
    _model_current_attempt (fst (deliver_model_events s evs))
      = Nat.max (_model_current_attempt s)
          (Nat.min (_model_current_attempt s + length evs) (Z.to_nat (_model_max_attempts s))).
Proof.
  induction evs as [|ev evs IH]; intros s Hall.
  - cbn. split; [reflexivity|lia].
  - inversion Hall as [|? ? (Hr & Hs & Ht) Hrest]; subst.
    cbn [deliver_model_events length seq map].
    unfold after_model_call. rewrite (model_throttled_step s ev false Hr Hs Ht).
    unfold nth_throttle_outcome at 1. rewrite Nat.add_0_r.
    destruct (Z.leb_spec (_model_max_attempts s) (Z.of_nat (_model_current_attempt s)))
      as [Hle|Hlt]; cbv beta iota zeta delta [snd self event slept start].
    + destruct (IH s Hrest) as [IHo IHc].
      destruct (deliver_model_events s evs) as [s2 out]. cbn [fst snd] in *.
      split.
      * rewrite Hr. f_equal. rewrite IHo, <- seq_shift, map_map. apply map_ext.
        intros i. unfold nth_throttle_outcome.
        destruct (Z.leb_spec (_model_max_attempts s) (Z.of_nat (_model_current_attempt s + i)));
          [|lia].
        destruct (Z.leb_spec (_model_max_attempts s)
                    (Z.of_nat (_model_current_attempt s + S i))); [reflexivity|lia].
      * rewrite IHc. lia.
    + set (s1 := set_model_current_attempt _ _).
      destruct (IH s1 Hrest) as [IHo IHc].
      destruct (deliver_model_events s1 evs) as [s2 out]. cbn [fst snd] in *.
      assert (Hc1 : _model_current_attempt s1 = S (_model_current_attempt s))
        by (subst s1; cbn; lia).
      split.
      * f_equal. rewrite IHo, <- seq_shift, map_map, Hc1. apply map_ext.
        intros i. unfold nth_throttle_outcome. now rewrite Nat.add_succ_r.
      * rewrite IHc, Hc1. change (_model_max_attempts s1) with (_model_max_attempts s). lia.
Qed.

Lemma X11_witness :
  snd (deliver_model_events default_strategy [model_throttled; model_throttled])
    = map (nth_throttle_outcome default_strategy (_model_current_attempt default_strategy))
          (seq 0 2) /\
  _model_current_attempt (fst (deliver_model_events default_strategy
                                 [model_throttled; model_throttled]))
    = Nat.max (_model_current_attempt default_strategy)
        (Nat.min (_model_current_attempt default_strategy + 2)
                 (Z.to_nat (_model_max_attempts default_strategy))).
Proof.
  apply (X11_model_retry_budget [model_throttled; model_throttled] default_strategy).
  repeat constructor.
Defined.

(** X12.  The backoff restarts after anything but a throttle: a model event
    with the flag unset that carries a success payload, or an exception that
    is not a throttle, or no exception, puts the counter back to 0 and clears
    the notification without sleeping or retrying, so the next throttled call
    sleeps the delay of attempt 0 again. *)
Theorem X12_model_backoff_restarts :
  forall s ev,
    AfterModelCallEvent.retry ev = false ->
    AfterModelCallEvent.stop_response ev <> None \/
      is_ModelThrottledException (AfterModelCallEvent.exception ev) = false ->
    let '(s1, r, d) := after_model_call s ev in
    _model_current_attempt s1 = 0%nat /\
    _backwards_compatible_event_to_yield s1 = None /\
    _tool_attempts s1 = _tool_attempts s /\
    r = false /\ d = [] /\
    ((0 < _model_max_attempts s)%Z ->
     forall ev', AfterModelCallEvent.retry ev' = false ->
                 AfterModelCallEvent.stop_response ev' = None ->
                 is_ModelThrottledException (AfterModelCallEvent.exception ev') = true ->
                 snd (fst (after_model_call s1 ev')) = true /\
                 snd (after_model_call s1 ev') = [_calculate_model_delay s 0]).
Proof.
  intros s ev Hr Hcase. unfold after_model_call at 1. rewrite model_call_cases, Hr.
  assert (Hb : bool_decide (AfterModelCallEvent.stop_response ev <> None)
               || negb (is_ModelThrottledException (AfterModelCallEvent.exception ev)) = true).
  { destruct Hcase as [H|H].
    - now rewrite (bool_decide_eq_true_2 _ H).
    - rewrite H. apply orb_true_r. }
  rewrite Hb. cbv beta iota zeta delta [snd self event slept start].
  rewrite Hr. do 5 (split; [reflexivity|]).
  intros Hmax ev' Hr' Hs' Ht'.
  unfold after_model_call. rewrite (model_throttled_step _ ev' false Hr' Hs' Ht').
  cbn [_model_current_attempt set_backwards_compatible_event_to_yield
         set_model_current_attempt _model_max_attempts].
  destruct (Z.leb_spec (_model_max_attempts s) (Z.of_nat 0)); [lia|].
  split; reflexivity.
Qed.

Lemma X12_witness :
  let '(s1, r, d) := after_model_call
                       (set_model_current_attempt 3 default_strategy) model_success in
  _model_current_attempt s1 = 0%nat /\
  _backwards_compatible_event_to_yield s1 = None /\
  _tool_attempts s1 = _tool_attempts (set_model_current_attempt 3 default_strategy) /\
  r = false /\ d = [] /\
  ((0 < _model_max_attempts (set_model_current_attempt 3 default_strategy))%Z ->
   forall ev', AfterModelCallEvent.retry ev' = false ->
               AfterModelCallEvent.stop_response ev' = None ->
               is_ModelThrottledException (AfterModelCallEvent.exception ev') = true ->
               snd (fst (after_model_call s1 ev')) = true /\
               snd (after_model_call s1 ev')
                 = [_calculate_model_delay (set_model_current_attempt 3 default_strategy) 0]).
Proof.
  apply (X12_model_backoff_restarts (set_model_current_attempt 3 default_strategy) model_success).
  - reflexivity.
  - left. discriminate.
Defined.

(** ** Enablement, from the constructor's arguments *)

(** The stored sets filter as the lists given to [__init__] do, an empty list
    not at all. *)
Lemma stored_lists_spec (en dis : option (list string)) (tool : string) :
  en = None \/ dis = None ->
  ((forall E : gset string, set_if_truthy en = Some E -> tool ∈ E) /\
   (forall D : gset string, set_if_truthy en = None -> set_if_truthy dis = Some D -> tool ∉ D))
  <->
  ((forall x l, en = Some (x :: l) -> In tool (x :: l)) /\
   (forall x l, dis = Some (x :: l) -> ~ In tool (x :: l))).
Proof.
  assert (Hin : forall x l, tool ∈ (list_to_set (x :: l) : gset string) <-> In tool (x :: l)).
  { intros x l. rewrite elem_of_list_to_set. apply list_elem_of_In. }
  intros Hone.
  destruct en as [[|x l]|], dis as [[|y k]|]; cbn [set_if_truthy];
    try (destruct Hone; discriminate).
  - split; intros _; split; intros; discriminate.
  - split; intros [He _]; (split; [|intros; discriminate]).
    + intros x' l' [= <- <-]. apply Hin. now apply He.
    + intros E [= <-]. apply Hin. now apply He.
  - split; intros _; split; intros; discriminate.
  - split; intros [_ Hd]; (split; [intros; discriminate|]).
    + intros y' k' [= <- <-] HIn. apply (Hd _ eq_refl eq_refl). now apply Hin.
    + intros D _ [= <-] HIn. apply (Hd y k eq_refl). now apply Hin.
  - split; intros _; split; intros; discriminate.
Qed.

(** Enablement read off the arguments of [__init__]. *)
Lemma enablement_from_arguments :
  forall a s tool,
    __init__ a = inr s ->
    (_is_tool_retry_enabled s tool = true <->
     ((0 < tool_max_attempts a)%Z \/
      exists configs c m, tool_configs a = Some configs /\ configs !! tool = Some c /\
                          max_attempts c = Some m /\ (0 < m)%Z) /\
     (forall x l, tool_enabled_tools a = Some (x :: l) -> In tool (x :: l)) /\
     (forall x l, tool_disabled_tools a = Some (x :: l) -> ~ In tool (x :: l))).
Proof.
  intros a s tool Hinit. rewrite is_tool_retry_enabled_spec.
  assert (Hs : _tool_max_attempts s = tool_max_attempts a /\
               _tool_configs s = default ∅ (tool_configs a) /\
               _tool_enabled_tools s = set_if_truthy (tool_enabled_tools a) /\
               _tool_disabled_tools s = set_if_truthy (tool_disabled_tools a) /\
               (tool_enabled_tools a = None \/ tool_disabled_tools a = None)).
  { unfold __init__ in Hinit.
    destruct (tool_enabled_tools a), (tool_disabled_tools a);
      first [discriminate Hinit | injection Hinit as <-; cbn; auto 10]. }
  destruct Hs as (-> & -> & -> & -> & Hone).
  assert (Hcfg : (exists c m, default ∅ (tool_configs a) !! tool = Some c /\
                              max_attempts c = Some m /\ (0 < m)%Z) <->
                 (exists configs c m, tool_configs a = Some configs /\ configs !! tool = Some c /\
                                      max_attempts c = Some m /\ (0 < m)%Z)).
  { destruct (tool_configs a) as [cfgs|]; cbn [default from_option id].
    - split.
      + intros (c & m & H). exists cfgs, c, m. tauto.
      + intros (cfgs' & c & m & [= <-] & H). eauto.
    - split.
      + intros (c & m & H & _). rewrite lookup_empty in H. discriminate.
      + intros (cfgs' & c & m & [=] & _). }
  rewrite Hcfg.
  pose proof (stored_lists_spec (tool_enabled_tools a) (tool_disabled_tools a) tool Hone) as Hl.
  tauto.
Qed.

(** X13.  For a strategy built by [__init__], retries are enabled for a tool
    exactly when the global [tool_max_attempts] or the tool's own override of
    [max_attempts] is positive, and the tool is in the allow-list if a
    non-empty one was given, and not in the deny-list if a non-empty one was
    given; an empty list filters nothing. *)
Theorem X13_enablement_from_the_arguments :
  forall a s tool,
    __init__ a = inr s ->
    (_is_tool_retry_enabled s tool = true <->
     ((0 < tool_max_attempts a)%Z \/
      exists configs c m, tool_configs a = Some configs /\ configs !! tool = Some c /\
                          max_attempts c = Some m /\ (0 < m)%Z) /\
     (forall x l, tool_enabled_tools a = Some (x :: l) -> In tool (x :: l)) /\
     (forall x l, tool_disabled_tools a = Some (x :: l) -> ~ In tool (x :: l))).
Proof. exact enablement_from_arguments. Qed.

Lemma X13_witness :
  _is_tool_retry_enabled
    {| _model_max_attempts := 6; _model_initial_delay := 4; _model_max_delay := 240;
       _model_current_attempt := 0; _tool_max_attempts := 3; _tool_initial_delay := 1;
       _tool_max_delay := 30; _tool_should_retry := None; _tool_configs := ∅;
       _tool_enabled_tools := Some (list_to_set ["enabled_tool"]);
       _tool_disabled_tools := None; _tool_attempts := ∅;
       _backwards_compatible_event_to_yield := None |} "other_tool" = true <->
  ((0 < 3)%Z \/
   exists configs c m, @None (gmap string ToolConfig) = Some configs /\
                       configs !! "other_tool" = Some c /\
                       max_attempts c = Some m /\ (0 < m)%Z) /\
  (forall x l, Some ["enabled_tool"] = Some (x :: l) -> In "other_tool" (x :: l)) /\
  (forall x l, @None (list string) = Some (x :: l) -> ~ In "other_tool" (x :: l)).
Proof.
  apply (X13_enablement_from_the_arguments
           (tool_args 3 None None (Some ["enabled_tool"]) None)).
  reflexivity.
Defined.

(** X14.  A retry needs room for a second attempt: the tool callback sets the
    flag only when the effective [max_attempts] of the tool, its override if
    it has one and the global value otherwise, is at least 2, and the model
    callback only when [model_max_attempts] is at least 1. *)
Theorem X14_retry_needs_a_second_attempt :
  (forall s ev,
      AfterToolCallEvent.retry ev = false ->
      snd (fst (after_tool_call s ev)) = true ->
      (2 <= fst (fst (_get_tool_config s (tool_name_of ev))))%Z /\
      (forall c m, _tool_configs s !! tool_name_of ev = Some c ->
                   max_attempts c = Some m -> (2 <= m)%Z) /\
      ((forall c, _tool_configs s !! tool_name_of ev = Some c -> max_attempts c = None) ->
       (2 <= _tool_max_attempts s)%Z)) /\
  (forall s ev,
      AfterModelCallEvent.retry ev = false ->
      snd (fst (after_model_call s ev)) = true ->
      (1 <= _model_max_attempts s)%Z).
Proof.
  split.
  - intros s ev Hr Hset.
    destruct (tool_retry_set_inv s ev Hr Hset) as (_ & _ & _ & Hlt).
    assert (H2 : (2 <= fst (fst (_get_tool_config s (tool_name_of ev))))%Z) by lia.
    split; [exact H2|]. unfold _get_tool_config in H2. cbn [fst] in H2. split.
    + intros c m Hc Hm. rewrite Hc in H2. cbn [default from_option id] in H2.
      now rewrite Hm in H2.
    + intros Hno. destruct (_tool_configs s !! tool_name_of ev) as [c|]; [|exact H2].
      cbn [default from_option id] in H2. now rewrite (Hno c eq_refl) in H2.
  - intros s ev Hr Hset.
    destruct (model_retry_set_inv s ev Hr Hset) as (_ & _ & Hlt). lia.
Qed.

Lemma X14_witness :
  (2 <= fst (fst (_get_tool_config (tool_strategy 3 ∅)
                    (tool_name_of (tool_failure "id-1" "my_tool")))))%Z /\
  (forall c m, _tool_configs (tool_strategy 3 ∅) !! tool_name_of (tool_failure "id-1" "my_tool")
               = Some c ->
               max_attempts c = Some m -> (2 <= m)%Z) /\
  ((forall c, _tool_configs (tool_strategy 3 ∅) !! tool_name_of (tool_failure "id-1" "my_tool")
              = Some c -> max_attempts c = None) ->
   (2 <= _tool_max_attempts (tool_strategy 3 ∅))%Z).
Proof.
  apply (proj1 X14_retry_needs_a_second_attempt (tool_strategy 3 ∅)
           (tool_failure "id-1" "my_tool")); reflexivity.
Defined.

(** X15.  The two readings of a failure agree: [_is_tool_error_result] holds
    exactly when [_get_tool_error_for_predicate] yields an error, so a
    configured predicate is consulted on every failure that reaches it. *)
Theorem X15_failure_iff_error_for_predicate :
  forall ev,
    _is_tool_error_result ev = true <-> is_Some (_get_tool_error_for_predicate ev).
Proof.
  intros ev. split.
  - intros H. destruct (failure_has_error ev H) as [e He]. rewrite He. eauto.
  - unfold _is_tool_error_result, _get_tool_error_for_predicate.
    destruct (AfterToolCallEvent.exception ev) as [e|].
    + intros _. now rewrite bool_decide_eq_true_2 by discriminate.
    + intros Hsome. repeat case_bool_decide; try reflexivity; try congruence.
      destruct Hsome as [e He]. discriminate He.
Qed.

(** X16.  A success event is safe to deliver for an identifier that has no
    record, and to deliver twice: without a record the strategy is unchanged,
    and a second delivery changes nothing the first did not; it never sleeps
    and never sets the flag. *)
Theorem X16_success_is_idempotent :
  forall s ev,
    AfterToolCallEvent.retry ev = false ->
    indicates_success ev ->
    let '(s1, r, d) := after_tool_call s ev in
    r = false /\ d = [] /\
    fst (fst (after_tool_call s1 ev)) = s1 /\
    (_tool_attempts s !! tool_use_id_of ev = None -> s1 = s).
Proof.
  intros s ev Hr Hs. apply indicates_success_not_error in Hs.
  rewrite after_tool_call_cases, Hr, Hs.
  destruct (_is_tool_retry_enabled s (tool_name_of ev)) eqn:He; cbv beta iota delta [negb].
  - destruct (_tool_attempts s !! tool_use_id_of ev) as [n|] eqn:Hl.
    + rewrite bool_decide_eq_true_2 by eauto.
      repeat split; [|discriminate].
      rewrite after_tool_call_cases, Hr, Hs.
      change (_is_tool_retry_enabled (set_tool_attempts ?m s) ?t)
        with (_is_tool_retry_enabled s t).
      rewrite He. cbv beta iota delta [negb].
      cbn [_tool_attempts set_tool_attempts]. rewrite lookup_delete_eq.
      rewrite bool_decide_eq_false_2 by (intros [? ?]; discriminate). reflexivity.
    + rewrite bool_decide_eq_false_2 by (intros [? ?]; discriminate).
      repeat split.
      rewrite after_tool_call_cases, Hr, Hs, He, Hl. cbv beta iota delta [negb].
      rewrite bool_decide_eq_false_2 by (intros [? ?]; discriminate). reflexivity.
  - repeat split. rewrite after_tool_call_cases, Hr, He. reflexivity.
Qed.

Lemma X16_witness :
  let '(s1, r, d) := after_tool_call (tool_strategy 3 ∅) (tool_success "id-9" "my_tool") in
  r = false /\ d = [] /\
  fst (fst (after_tool_call s1 (tool_success "id-9" "my_tool"))) = s1 /\
  (_tool_attempts (tool_strategy 3 ∅) !! tool_use_id_of (tool_success "id-9" "my_tool") = None ->
   s1 = tool_strategy 3 ∅).
Proof.
  apply (X16_success_is_idempotent (tool_strategy 3 ∅) (tool_success "id-9" "my_tool")).
  - reflexivity.
  - split; [reflexivity|discriminate].
Defined.

(** X17.  Tool retries are opt-in: a strategy built with a [tool_max_attempts]
    that is not positive and no per-tool configuration ignores every tool
    event, failures included: no sleep, no flag set, nothing recorded. *)
Theorem X17_tool_retries_are_off_by_default :
  forall a s0 evs,
    __init__ a = inr s0 ->
    (tool_max_attempts a <= 0)%Z ->
    tool_configs a = None ->
    deliver_tool_events s0 evs
      = (s0, map (fun ev => (AfterToolCallEvent.retry ev, [])) evs) /\
    _tool_attempts s0 = ∅.
Proof.
  intros a s0 evs Hinit Hmax Hcfg.
  assert (Hoff : forall tool, _is_tool_retry_enabled s0 tool = false).
  { intros tool. destruct (_is_tool_retry_enabled s0 tool) eqn:E; [|reflexivity].
    apply (enablement_from_arguments a s0 tool Hinit) in E as [[H|(c & ? & ? & Hc & _)] _]; [lia|].
    congruence. }
  split.
  - induction evs as [|ev evs IH]; [reflexivity|].
    cbn [deliver_tool_events map]. rewrite after_tool_call_cases, Hoff.
    cbv beta iota delta [negb].
    destruct (AfterToolCallEvent.retry ev); now rewrite IH.
  - unfold __init__ in Hinit.
    destruct (tool_enabled_tools a), (tool_disabled_tools a);
      first [discriminate Hinit | injection Hinit as <-; reflexivity].
Qed.

Lemma X17_witness :
  deliver_tool_events default_strategy
    [tool_failure "id-1" "my_tool"; tool_failure "id-1" "my_tool"]
    = (default_strategy,
       map (fun ev => (AfterToolCallEvent.retry ev, []))
           [tool_failure "id-1" "my_tool"; tool_failure "id-1" "my_tool"]) /\
  _tool_attempts default_strategy = ∅.
Proof.
  apply (X17_tool_retries_are_off_by_default default_args); reflexivity.
Defined.

(** ** Isolation of identifiers *)

(** Two strategies that differ at most in their attempt maps and agree on the
    count of the event's identifier decide alike on the event. *)
Lemma step_agrees s t ev :
  set_tool_attempts ∅ s = set_tool_attempts ∅ t ->
  _tool_attempts s !! tool_use_id_of ev = _tool_attempts t !! tool_use_id_of ev ->
  snd (fst (after_tool_call s ev)) = snd (fst (after_tool_call t ev)) /\
  snd (after_tool_call s ev) = snd (after_tool_call t ev) /\
  _tool_attempts (fst (fst (after_tool_call s ev))) !! tool_use_id_of ev
    = _tool_attempts (fst (fst (after_tool_call t ev))) !! tool_use_id_of ev.
Proof.
  intros HR Hl.
  assert (He : forall x, _is_tool_retry_enabled t x = _is_tool_retry_enabled s x).
  { intros x. change (_is_tool_retry_enabled (set_tool_attempts ∅ t) x
                      = _is_tool_retry_enabled (set_tool_attempts ∅ s) x). now rewrite HR. }
  assert (Hc : forall x, _get_tool_config t x = _get_tool_config s x).
  { intros x. change (_get_tool_config (set_tool_attempts ∅ t) x
                      = _get_tool_config (set_tool_attempts ∅ s) x). now rewrite HR. }
  assert (Hp : forall e, predicate_rejects t e = predicate_rejects s e).
  { intros e. change (predicate_rejects (set_tool_attempts ∅ t) e
                      = predicate_rejects (set_tool_attempts ∅ s) e). now rewrite HR. }
  assert (Ha : attempts_of t (tool_use_id_of ev) = attempts_of s (tool_use_id_of ev))
    by (unfold attempts_of; now rewrite Hl).
  rewrite !after_tool_call_cases, He, Hc, Hp, Ha, <- Hl.
  destruct (AfterToolCallEvent.retry ev); [now auto|].
  destruct (negb (_is_tool_retry_enabled _ _)); [now auto|].
  destruct (negb (_is_tool_error_result ev)).
  { cbn [fst snd]. repeat split.
    destruct (_tool_attempts s !! tool_use_id_of ev) as [n|] eqn:E.
    - rewrite bool_decide_eq_true_2 by eauto. cbn. now rewrite !lookup_delete_eq.
    - rewrite bool_decide_eq_false_2 by (intros [? ?]; discriminate). now rewrite E, <- Hl. }
  destruct (predicate_rejects _ _); [now auto|].
  destruct (_get_tool_config _ _) as [[ma idl] mdl]. cbv zeta.
  destruct (_ <=? _)%Z; cbn; rewrite !lookup_insert_eq; auto.
Qed.

Lemma after_tool_call_keeps_rest s ev :
  set_tool_attempts ∅ (fst (fst (after_tool_call s ev))) = set_tool_attempts ∅ s.
Proof.
  destruct (after_tool_call_frame s ev) as [m ->]. reflexivity.
Qed.

(** X18.  Identifiers do not interfere over whole histories: in any sequence
    of tool events, the events of one identifier receive the decisions and
    delays they would receive if the events of all other identifiers were left
    out, and the identifier ends with the same record. *)
Theorem X18_histories_project_on_identifiers :
  forall evs s uid,
    map snd (filter (fun p => tool_use_id_of (fst p) = uid)
               (combine evs (snd (deliver_tool_events s evs))))
      = snd (deliver_tool_events s (filter (fun ev => tool_use_id_of ev = uid) evs)) /\
    _tool_attempts (fst (deliver_tool_events s evs)) !! uid
      = _tool_attempts
          (fst (deliver_tool_events s (filter (fun ev => tool_use_id_of ev = uid) evs))) !! uid.
Proof.
  assert (Hgen : forall evs s t uid,
             set_tool_attempts ∅ s = set_tool_attempts ∅ t ->
             _tool_attempts s !! uid = _tool_attempts t !! uid ->
             map snd (filter (fun p => tool_use_id_of (fst p) = uid)
                        (combine evs (snd (deliver_tool_events s evs))))
               = snd (deliver_tool_events t (filter (fun ev => tool_use_id_of ev = uid) evs)) /\
             _tool_attempts (fst (deliver_tool_events s evs)) !! uid
               = _tool_attempts
                   (fst (deliver_tool_events t
                           (filter (fun ev => tool_use_id_of ev = uid) evs))) !! uid).
  { induction evs as [|ev evs IH]; intros s t uid HR Hl.
    - cbn. auto.
    - cbn [deliver_tool_events].
      pose proof (after_tool_call_keeps_rest s ev) as Hs1.
      destruct (decide (tool_use_id_of ev = uid)) as [Heq|Hne].
      + rewrite filter_cons_True by exact Heq. cbn [deliver_tool_events].
        pose proof (after_tool_call_keeps_rest t ev) as Ht1.
        rewrite <- Heq in Hl. destruct (step_agrees s t ev HR Hl) as (Hr & Hd & Hl1).
        destruct (after_tool_call s ev) as [[s1 r] d].
        destruct (after_tool_call t ev) as [[t1 r'] d']. cbn [fst snd] in *. subst r' d'.
        rewrite Heq in Hl1.
        destruct (IH s1 t1 uid (eq_trans Hs1 (eq_trans HR (eq_sym Ht1))) Hl1) as [IHo IHl].
        destruct (deliver_tool_events s1 evs) as [s2 out].
        destruct (deliver_tool_events t1 _) as [t2 out']. cbn [fst snd combine] in *.
        rewrite filter_cons_True by exact Heq. cbn [map snd]. now rewrite IHo.
      + rewrite filter_cons_False by exact Hne.
        pose proof (after_tool_call_other_ids s ev uid (not_eq_sym Hne)) as Ho.
        destruct (after_tool_call s ev) as [[s1 r] d]. cbn [fst snd] in *.
        destruct (IH s1 t uid (eq_trans Hs1 HR) (eq_trans Ho Hl)) as [IHo IHl].
        destruct (deliver_tool_events s1 evs) as [s2 out]. cbn [fst snd combine] in *.
        rewrite filter_cons_False by exact Hne. auto. }
  intros evs s uid. now apply Hgen.
Qed.

(** X19.  Cancelling the backoff of a tool call loses no bookkeeping: the
    strategy a cancelled tool callback leaves behind is the one the callback
    leaves when it runs to its end. *)
Theorem X19_cancelled_tool_call_keeps_the_bookkeeping :
  forall s ev, dispatch s (ToolCall ev, true) = dispatch s (ToolCall ev, false).
Proof.
  intros s ev. unfold dispatch. rewrite !tool_call_cases.
  destruct (AfterToolCallEvent.retry ev); [reflexivity|].
  destruct (negb (_is_tool_retry_enabled _ _)); [reflexivity|].
  destruct (negb (_is_tool_error_result ev)); [reflexivity|].
  destruct (predicate_rejects _ _); [reflexivity|].
  destruct (_get_tool_config _ _) as [[ma idl] mdl]. cbv zeta.
  destruct (_ <=? _)%Z; reflexivity.
Qed.

(** ** The model counter and the notification *)

Lemma dispatch_counter_bound s h :
  (Z.of_nat (_model_current_attempt s) <= Z.max 0 (_model_max_attempts s))%Z ->
  (Z.of_nat (_model_current_attempt (dispatch s h)) <= Z.max 0 (_model_max_attempts s))%Z.
Proof.
  intros Hb. destruct h as [[ev|ev|ev] cancel].
  - unfold dispatch. rewrite model_call_cases.
    destruct (AfterModelCallEvent.retry ev); [exact Hb|].
    destruct (_ || _); [cbn; lia|]. cbv zeta.
    destruct (Z.leb_spec (_model_max_attempts s) (Z.of_nat (_model_current_attempt s)));
      [exact Hb|].
    destruct cancel; [exact Hb|]. cbn. lia.
  - now rewrite (proj1 (proj2 (sub_policies_separate s cancel) ev)).
  - unfold dispatch. run_task. cbn. lia.
Qed.

(** X20.  The model counter never passes the budget: in every history that
    starts from a strategy built by [__init__], with any callbacks cancelled,
    the counter stays at or below [model_max_attempts] (or at 0 when that is
    negative). *)
Theorem X20_model_counter_stays_within_budget :
  forall a s0 hs,
    __init__ a = inr s0 ->
    (Z.of_nat (_model_current_attempt (deliver s0 hs)) <= Z.max 0 (model_max_attempts a))%Z.
Proof.
  intros a s0 hs Hinit.
  assert (H0 : _model_current_attempt s0 = 0%nat /\ _model_max_attempts s0 = model_max_attempts a).
  { unfold __init__ in Hinit.
    destruct (tool_enabled_tools a), (tool_disabled_tools a);
      first [discriminate Hinit | injection Hinit as <-; split; reflexivity]. }
  destruct H0 as [Hc Hm]. rewrite <- Hm.
  assert (Hgen : forall hs s,
             (Z.of_nat (_model_current_attempt s) <= Z.max 0 (_model_max_attempts s))%Z ->
             (Z.of_nat (_model_current_attempt (deliver s hs))
                <= Z.max 0 (_model_max_attempts s))%Z).
  { clear. induction hs as [|h hs IH]; intros s Hb; [exact Hb|].
    unfold deliver in *. cbn [fold_left].
    pose proof (dispatch_counter_bound s h Hb) as Hb1.
    destruct (dispatch_assigns_state_only s h) as (n & e & m & Hd).
    assert (Hmax : _model_max_attempts (dispatch s h) = _model_max_attempts s)
      by (rewrite Hd; reflexivity).
    rewrite <- Hmax in Hb1 |- *. now apply IH. }
  apply Hgen. rewrite Hc. lia.
Qed.

Lemma X20_witness :
  (Z.of_nat (_model_current_attempt
               (deliver default_strategy
                  [(ModelCall model_throttled, false); (ModelCall model_throttled, true);
                   (ModelCall model_throttled, false)]))
     <= Z.max 0 (model_max_attempts default_args))%Z.
Proof.
  apply (X20_model_counter_stays_within_budget default_args). reflexivity.
Defined.

Lemma py_int_floor d :
  (0 <= d)%Q -> (inject_Z (py_int d) <= d)%Q /\ (d < inject_Z (py_int d + 1))%Q.
Proof.
  destruct d as [p q]. unfold Qle, Qlt, py_int, inject_Z. cbn [Qnum Qden].
  intros Hp. rewrite Z.mul_1_r in Hp.
  rewrite Z.quot_div_nonneg by lia. rewrite !Z.mul_1_r.
  pose proof (Z.mul_div_le p (Z.pos q) ltac:(lia)).
  pose proof (Z.mul_succ_div_gt p (Z.pos q) ltac:(lia)).
  split; lia.
Qed.

(** X21.  The throttle notification reports the whole seconds of the sleep:
    when the base delay and the cap are not negative, the integer stored in
    the notification of a model retry is at most the delay that was slept and
    less than one second short of it. *)
Theorem X21_notification_is_the_whole_seconds_slept :
  forall s ev,
    (0 <= _model_initial_delay s)%Q ->
    (0 <= _model_max_delay s)%Q ->
    AfterModelCallEvent.retry ev = false ->
    snd (fst (after_model_call s ev)) = true ->
    exists d n,
      snd (after_model_call s ev) = [d] /\
      _backwards_compatible_event_to_yield (fst (fst (after_model_call s ev)))
        = Some {| delay := n |} /\
      (inject_Z n <= d)%Q /\ (d < inject_Z (n + 1))%Q.
Proof.
  intros s ev Hi Hm Hr Hset.
  destruct (model_retry_set_inv s ev Hr Hset) as (Hs & Ht & Hlt).
  unfold after_model_call. rewrite (model_throttled_step s ev false Hr Hs Ht).
  destruct (Z.leb_spec (_model_max_attempts s) (Z.of_nat (_model_current_attempt s))); [lia|].
  cbv beta iota zeta delta [snd fst self event slept].
  eexists _, _. split; [reflexivity|]. split; [reflexivity|].
  apply py_int_floor.
  unfold _calculate_model_delay, py_min. cbv zeta.
  destruct (Qltb _ _); [exact Hm|].
  pose proof (pow2_pos (_model_current_attempt s)). nra.
Qed.

Lemma X21_witness :
  exists d n,
    snd (after_model_call default_strategy model_throttled) = [d] /\
    _backwards_compatible_event_to_yield
      (fst (fst (after_model_call default_strategy model_throttled)))
      = Some {| delay := n |} /\
    (inject_Z n <= d)%Q /\ (d < inject_Z (n + 1))%Q.
Proof.
  apply (X21_notification_is_the_whole_seconds_slept default_strategy model_throttled).
  - discriminate.
  - discriminate.
  - reflexivity.
  - reflexivity.
Defined.

(** ** Exhaustion, over whole histories *)

(** A delivery that keeps the record of [uid] leaves the identifier on record
    with a count that is not smaller, and the tool's configuration as it was,
    cancelled or not. *)
Lemma dispatch_keeps_exhausted s uid tool n h :
  _tool_attempts s !! uid = Some n ->
  keeps_record uid h ->
  (exists n', _tool_attempts (dispatch s h) !! uid = Some n' /\ (n <= n')%nat) /\
  _get_tool_config (dispatch s h) tool = _get_tool_config s tool.
Proof.
  intros Hn Hk. split.
  2:{ destruct (dispatch_assigns_state_only s h) as (c & e & m & ->). reflexivity. }
  destruct h as [[ev|ev|ev] cancel]; unfold keeps_record in Hk; cbn [fst] in Hk.
  - rewrite (proj1 (sub_policies_separate s cancel) ev). eauto.
  - unfold dispatch. rewrite tool_call_cases.
    destruct (AfterToolCallEvent.retry ev); [cbn [snd self start]; eauto|].
    destruct (negb (_is_tool_retry_enabled _ _)); [cbn [snd self start]; eauto|].
    destruct (decide (tool_use_id_of ev = uid)) as [Heq|Hne].
    + rewrite (Hk Heq). cbv beta iota delta [negb].
      destruct (predicate_rejects _ _); [cbn [snd self start]; eauto|].
      destruct (_get_tool_config _ _) as [[ma idl] mdl]. cbv zeta.
      assert (Hins : exists n',
                 _tool_attempts
                   (set_tool_attempts
                      (<[tool_use_id_of ev := S (attempts_of s (tool_use_id_of ev))]>
                         (_tool_attempts s)) s) !! uid = Some n' /\ (n <= n')%nat).
      { exists (S n). cbn. rewrite Heq, lookup_insert_eq. unfold attempts_of.
        rewrite Hn. cbn. split; [reflexivity|lia]. }
      destruct (_ <=? _)%Z; [exact Hins|]. destruct cancel; exact Hins.
    + assert (Hdel : exists n',
                 _tool_attempts
                   (if bool_decide (is_Some (_tool_attempts s !! tool_use_id_of ev))
                    then set_tool_attempts (delete (tool_use_id_of ev) (_tool_attempts s)) s
                    else s) !! uid = Some n' /\ (n <= n')%nat).
      { exists n. destruct (bool_decide _); [|auto].
        cbn. rewrite lookup_delete_ne by exact Hne. auto. }
      assert (Hins : exists n',
                 _tool_attempts
                   (set_tool_attempts
                      (<[tool_use_id_of ev := S (attempts_of s (tool_use_id_of ev))]>
                         (_tool_attempts s)) s) !! uid = Some n' /\ (n <= n')%nat).
      { exists n. cbn. rewrite lookup_insert_ne by exact Hne. auto. }
      destruct (negb (_is_tool_error_result ev)); [exact Hdel|].
      destruct (predicate_rejects _ _); [cbn [snd self start]; eauto|].
      destruct (_get_tool_config _ _) as [[ma idl] mdl]. cbv zeta.
      destruct (_ <=? _)%Z; [exact Hins|]. destruct cancel; exact Hins.
  - contradiction.
Qed.

Lemma deliver_keeps_exhausted hs : forall s uid tool n,
  _tool_attempts s !! uid = Some n ->
  Forall (keeps_record uid) hs ->
  (exists n', _tool_attempts (deliver s hs) !! uid = Some n' /\ (n <= n')%nat) /\
  _get_tool_config (deliver s hs) tool = _get_tool_config s tool.
Proof.
  induction hs as [|h hs IH]; intros s uid tool n Hn Hall.
  - cbn. eauto.
  - inversion Hall as [|? ? Hk Hrest]; subst.
    destruct (dispatch_keeps_exhausted s uid tool n h Hn Hk) as ((n1 & Hn1 & Hle1) & Hc1).
    destruct (IH (dispatch s h) uid tool n1 Hn1 Hrest) as ((n2 & Hn2 & Hle2) & Hc2).
    unfold deliver in *. cbn [fold_left]. split.
    + exists n2. split; [exact Hn2|lia].
    + now rewrite Hc2.
Qed.

(** C5, as stated, fails: on a strategy with [tool_max_attempts=2] whose
    identifier ["id-1"] has count 2, a failure of ["id-1"], then a success of
    ["id-1"], which deletes the record, then a failure of ["id-1"]: the last
    one is retried. *)
Lemma C5_counterexample : ~ exhaustion_terminal_as_stated.
Proof.
  intros H.
  specialize (H (tool_strategy 2 {["id-1" := 2%nat]}) "id-1" 2%nat
                [(ToolCall (tool_failure "id-1" "my_tool"), false);
                 (ToolCall (tool_success "id-1" "my_tool"), false)]
                (tool_failure "id-1" "my_tool")
                eq_refl).
  assert (Hmax : (fst (fst (_get_tool_config (tool_strategy 2 {["id-1" := 2%nat]})
                              (tool_name_of (tool_failure "id-1" "my_tool"))))
                  <= Z.of_nat 2)%Z) by (vm_compute; discriminate).
  specialize (H Hmax eq_refl eq_refl eq_refl).
  vm_compute in H. discriminate H.
Qed.

(** The after-invocation reset ends exhaustion as well. *)
Example exhaustion_ends_at_reset :
  after_tool_call
    (deliver (tool_strategy 2 {["id-1" := 2%nat]})
       [(Invocation {| AfterInvocationEvent.result := None |}, false)])
    (tool_failure "id-1" "my_tool")
  = (tool_strategy 2 {["id-1" := 1%nat]}, true, [1%Q]).
Proof. vm_compute. reflexivity. Qed.

(** C5, amended.  Once the count recorded for an identifier has reached the
    effective [max_attempts] of its tool, a failure event of that identifier
    and tool that arrives with the flag unset leaves with it unset, without a
    sleep, and the identifier stays exhausted, after any history of model
    events, tool events of other identifiers and failure events of the
    identifier itself, cancelled or not, in which no success event of the
    identifier and no after-invocation event occurs. *)
Theorem C5_exhaustion_is_terminal :
  forall hs s uid tool n ev,
    _tool_attempts s !! uid = Some n ->
    (fst (fst (_get_tool_config s tool)) <= Z.of_nat n)%Z ->
    Forall (keeps_record uid) hs ->
    tool_use_id_of ev = uid ->
    tool_name_of ev = tool ->
    _is_tool_error_result ev = true ->
    AfterToolCallEvent.retry ev = false ->
    let '(s', r, d) := after_tool_call (deliver s hs) ev in
    r = false /\ d = [] /\
    exists n', _tool_attempts s' !! uid = Some n' /\ (n <= n')%nat.
Proof.
  intros hs s uid tool n ev Hn Hmax Hall Hid Ht Hf Hr.
  destruct (deliver_keeps_exhausted hs s uid tool n Hn Hall) as ((n1 & Hn1 & Hle1) & Hc1).
  assert (Hmax1 : (fst (fst (_get_tool_config (deliver s hs) tool)) <= Z.of_nat n1)%Z)
    by (rewrite Hc1; lia).
  pose proof (exhausted_step (deliver s hs) uid tool n1 ev Hn1 Hmax1 (fun _ => conj Hf Ht))
    as Hstep.
  destruct (after_tool_call (deliver s hs) ev) as [[s' r] d].
  destruct Hstep as ((n2 & Hn2 & Hle2) & _ & Hflag).
  destruct (Hflag Hid Hr) as [-> ->].
  repeat split. exists n2. split; [exact Hn2|lia].
Qed.

(** C5 on a strategy with [tool_max_attempts=2] whose identifier ["id-1"] has
    count 2, after a cancelled throttled model call, a failure of ["id-2"] and
    one more failure of ["id-1"]. *)
Lemma C5_witness :
  let '(s', r, d) :=
    after_tool_call
      (deliver (tool_strategy 2 {["id-1" := 2%nat]})
         [(ModelCall model_throttled, true);
          (ToolCall (tool_failure "id-2" "my_tool"), false);
          (ToolCall (tool_failure "id-1" "my_tool"), false)])
      (tool_failure "id-1" "my_tool") in
  r = false /\ d = [] /\
  exists n', _tool_attempts s' !! "id-1" = Some n' /\ (2 <= n')%nat.
Proof.
  apply (C5_exhaustion_is_terminal
           [(ModelCall model_throttled, true);
            (ToolCall (tool_failure "id-2" "my_tool"), false);
            (ToolCall (tool_failure "id-1" "my_tool"), false)]
           (tool_strategy 2 {["id-1" := 2%nat]}) "id-1" "my_tool" 2%nat
           (tool_failure "id-1" "my_tool")).
  - reflexivity.
  - vm_compute. discriminate.
  - repeat constructor; intros H; try reflexivity; discriminate H.
  - reflexivity.
  - reflexivity.
  - reflexivity.
  - reflexivity.
Defined.
